(** * Nevada entity-search scraper: a shallow embedding of [nevada_scraper.py]

    The development follows the three functions of the script:
    - [solve_captcha]: submit a challenge to the solving service, then poll;
    - [parse_business_information]: the label/value and officer-table
      extractor;
    - [scrape_nevada_entity] and [main]: the acquisition attempt and the
      process entry point.

    Python dictionaries that are used as sparse mappings are stdpp [gmap]s,
    the browser and the HTTP service are explicit oracles, exceptions are
    values of a [result] type. *)

From Stdlib Require Import Ascii String ZArith Lia.
From stdpp Require Import base option list strings pretty gmap fin_maps.
From Equations Require Import Equations.


(** ** Python values that cross the program's boundaries *)

(** A JSON scalar as [response.json()] returns it inside a response object.
    Nested arrays and objects are never inspected by the program beyond their
    truthiness, so they are kept as [JNested] with that one observable. JSON
    numbers are integers here. *)
Inductive jval :=
| JNull
| JBool (b : bool)
| JNum (z : Z)
| JStr (s : string)
| JNested (nonempty : bool).

(** Exceptions. Those the script raises itself carry what the script puts in
    them; everything raised by [requests], [seleniumbase], [bs4] or the
    operating system is [External]. [str(e)] is represented by [e]. *)
Inductive exn :=
| Exception (msg : string)
| SubmitFailed (response_data : gmap string jval)
| KeyError (key : string)
| IndexError
| AttributeError
| JSONDecodeError
| External (cls msg : string).

Inductive result (A : Type) :=
| Ok (a : A)
| Raise (e : exn).
Arguments Ok {A} a.
Arguments Raise {A} e.

#[global] Instance result_ret : MRet result := fun A a => Ok a.
#[global] Instance result_fmap : FMap result := fun A B f m =>
  match m with
  | Ok a => Ok (f a)
  | Raise e => Raise e
  end.
#[global] Instance result_bind : MBind result := fun A B f m =>
  match m with
  | Ok a => f a
  | Raise e => Raise e
  end.

(** ** Strings *)

(** [p in s] on Python strings: [p] occurs in [s] as a contiguous run. *)
Fixpoint startswith (p s : string) : bool :=
  match p, s with
  | EmptyString, _ => true
  | String _ _, EmptyString => false
  | String a p', String b s' => if Ascii.eqb a b then startswith p' s' else false
  end.

Fixpoint py_in (p s : string) : bool :=
  startswith p s ||
  match s with
  | EmptyString => false
  | String _ s' => py_in p s'
  end.

(** [s.replace(':', '')]: every colon is dropped. *)
Fixpoint replace_colon (s : string) : string :=
  match s with
  | EmptyString => EmptyString
  | String c s' =>
      if Ascii.eqb c ":"%char then replace_colon s' else String c (replace_colon s')
  end.

(** [value if value else None] for a string. *)
Definition value_or_None (value : string) : option string :=
  if String.eqb value "" then None else Some value.

(** ** The record built by the extractor *)

Record officer := {
  title : string;
  name : string;
  address : string;
  last_updated : string;
  status : string
}.

(** The [metadata] dictionary. Its keys are fixed by the program; the ones
    that are not always present are optional fields. *)
Record metadata_t := {
  source : string;
  scraped_date : string;
  success : bool;
  error : option exn;
  file_number_searched : option string;
  request_id : option string
}.

(** [business_data]. The two sections are sparse mappings from field name to
    a string or [None] (JSON null). *)
Record business_data := {
  entity_information : gmap string (option string);
  registered_agent : gmap string (option string);
  officers : list officer;
  metadata : metadata_t
}.

(** [k in business_data] for the top-level dictionary, whose four keys are
    created with it (lines 85-94) and never removed. *)
Definition top_keys : list string :=
  ["entity_information"; "registered_agent"; "officers"; "metadata"].

Definition in_business_data (k : string) (bd : business_data) : bool :=
  bool_decide (k ∈ top_keys).

(** [k in d] for a section. *)
Definition in_dict (k : string) (d : gmap string (option string)) : bool :=
  bool_decide (is_Some (d !! k)).

(** [business_data['entity_information'][k] = v] *)
Definition set_entity (k : string) (v : option string) (bd : business_data)
  : business_data :=
  {| entity_information := <[k := v]> (entity_information bd);
     registered_agent := registered_agent bd;
     officers := officers bd;
     metadata := metadata bd |}.

(** [business_data['registered_agent'][k] = v] *)
Definition set_agent (k : string) (v : option string) (bd : business_data)
  : business_data :=
  {| entity_information := entity_information bd;
     registered_agent := <[k := v]> (registered_agent bd);
     officers := officers bd;
     metadata := metadata bd |}.

(** [business_data['officers'].append(o)] *)
Definition append_officer (o : officer) (bd : business_data) : business_data :=
  {| entity_information := entity_information bd;
     registered_agent := registered_agent bd;
     officers := officers bd ++ [o];
     metadata := metadata bd |}.

(** ** The parsed document

    [BeautifulSoup] is a library; what the extractor sees of a document is the
    outcome of its queries, which is what [document] records. *)

(** A [label.control-label]: its [get_text(strip=True)] and, when
    [label.parent.find_next_sibling('div')] exists, that sibling's
    [get_text(strip=True)]. *)
Record label := {
  get_text : string;
  next_div : option string
}.

Record document := {
  (** [soup.find_all('div', class_='panel-body')], each with its
      [find_all('div', class_='row form-group')], each with its labels *)
  panel_bodies : list (list (list label));
  (** [soup.find('table', {'id': 'grid_principalList'})], then its [tbody],
      then the [tr] rows, each as the texts of its [td] cells *)
  officer_table : option (option (list (list string)))
}.

(** ** [parse_business_information] *)

(** Lines 117-156: the ordered label rules. *)
Definition map_label (bd : business_data) (label_text value : string)
  : business_data :=
  if py_in "Entity Name" label_text then
    set_entity "entity_name" (Some value) bd
  else if py_in "Entity Number" label_text then
    set_entity "entity_number" (Some value) bd
  else if py_in "Entity Type" label_text then
    set_entity "entity_type" (Some value) bd
  else if py_in "Entity Status" label_text then
    set_entity "entity_status" (Some value) bd
  else if py_in "Formation Date" label_text then
    set_entity "formation_date" (Some value) bd
  else if py_in "NV Business ID" label_text
          && in_business_data "entity_information" bd then
    if negb (in_dict "nv_business_id" (entity_information bd)) then
      set_entity "nv_business_id" (Some value) bd
    else bd
  else if py_in "Termination Date" label_text then
    set_entity "termination_date" (value_or_None value) bd
  else if py_in "Annual Report Due Date" label_text then
    set_entity "annual_report_due_date" (Some value) bd
  else if py_in "Compliance Hold" label_text then
    set_entity "compliance_hold" (value_or_None value) bd
  else if py_in "Name of Individual or Legal Entity" label_text then
    set_agent "name" (Some value) bd
  else if py_in "Status" label_text
          && in_business_data "registered_agent" bd
          && in_dict "name" (registered_agent bd) then
    set_agent "status" (Some value) bd
  else if py_in "CRA Agent Entity Type" label_text then
    set_agent "cra_agent_entity_type" (value_or_None value) bd
  else if py_in "Registered Agent Type" label_text then
    set_agent "registered_agent_type" (Some value) bd
  else if py_in "NV Business ID" label_text
          && in_business_data "registered_agent" bd
          && in_dict "name" (registered_agent bd) then
    set_agent "nv_business_id" (Some value) bd
  else if py_in "Office or Position" label_text then
    set_agent "office_or_position" (value_or_None value) bd
  else if py_in "Jurisdiction" label_text then
    set_agent "jurisdiction" (value_or_None value) bd
  else if py_in "Street Address" label_text then
    set_agent "street_address" (Some value) bd
  else if py_in "Mailing Address" label_text then
    set_agent "mailing_address" (value_or_None value) bd
  else bd.

(** Lines 106-156: the body of [for label in labels]. *)
Definition process_label (bd : business_data) (l : label) : business_data :=
  let label_text := replace_colon (get_text l) in
  match next_div l with
  | Some value => map_label bd label_text value
  | None => bd
  end.

(** Lines 99-156: the three nested loops. *)
Definition process_row (bd : business_data) (labels : list label) : business_data :=
  fold_left process_label labels bd.

Definition process_panel (bd : business_data) (rows : list (list label))
  : business_data :=
  fold_left process_row rows bd.

(** Lines 165-175: the body of [for row in rows] of the officer table;
    [cells[i]] raises [IndexError] out of range. *)
Definition subscript (cells : list string) (i : nat) : result string :=
  match cells !! i with
  | Some c => Ok c
  | None => Raise IndexError
  end.

Definition process_officer_row (bd : business_data) (cells : list string)
  : result business_data :=
  if 5 <=? length cells then
    c0 ← subscript cells 0;
    c1 ← subscript cells 1;
    c2 ← subscript cells 2;
    c3 ← subscript cells 3;
    c4 ← subscript cells 4;
    Ok (append_officer
          {| title := c0; name := c1; address := c2;
             last_updated := c3; status := c4 |} bd)
  else Ok bd.

Fixpoint process_officer_rows (bd : business_data) (rows : list (list string))
  : result business_data :=
  match rows with
  | [] => Ok bd
  | cells :: rows' =>
      bd' ← process_officer_row bd cells;
      process_officer_rows bd' rows'
  end.

(** Lines 85-94, with [now] the value of [time.strftime(...)]. *)
Definition new_business_data (now : string) : business_data :=
  {| entity_information := ∅;
     registered_agent := ∅;
     officers := [];
     metadata :=
       {| source := "Nevada Secretary of State";
          scraped_date := now;
          success := true;
          error := None;
          file_number_searched := None;
          request_id := None |} |}.

(** Lines 85-177: the extraction proper, on the parsed document. *)
Definition extract (now : string) (soup : document) : result business_data :=
  let bd := fold_left process_panel (panel_bodies soup) (new_business_data now) in
  match officer_table soup with
  | Some (Some rows) => process_officer_rows bd rows
  | _ => Ok bd
  end.

(** Lines 75-184. [BeautifulSoup] stands for the import of [bs4] and the
    construction of the soup, either of which may raise; every exception is
    turned into [None]. *)
Definition parse_business_information
    (BeautifulSoup : string → result document)
    (now : string) (html_content : string) : option business_data :=
  match soup ← BeautifulSoup html_content; extract now soup with
  | Ok bd => Some bd
  | Raise _ => None
  end.

(** ** Configuration (lines 15-18) *)

(** [os.getenv(k, default)] on the process environment. *)
Definition os_getenv (environ : gmap string string) (k default : string) : string :=
  match environ !! k with
  | Some v => v
  | None => default
  end.

Definition API_KEY (environ : gmap string string) : string :=
  os_getenv environ "SOLVECAPTCHA_API_KEY" "e8241ace650146ad502519d5ef2bf819".
Definition SOLVE_URL := "https://api.solvecaptcha.com/in.php".
Definition RESULT_URL := "https://api.solvecaptcha.com/res.php".
Definition NEVADA_URL := "https://esos.nv.gov/EntitySearch/OnlineEntitySearch".

(** ** The solving service and [solve_captcha] *)

(** What one round trip gives: [requests.post]/[requests.get] followed by
    [.json()] on the response. *)
Inductive http_response :=
| RequestFailed (e : exn)            (* the request itself raises *)
| NotJSON                            (* [.json()] raises *)
| JSONObject (d : gmap string jval)  (* [.json()] is a dict *)
| JSONOther.                         (* [.json()] is not a dict: no [.get] *)

(** The network as the function sees it. A GET is identified by the number
    of GETs made before it during the call, so a service may answer each poll
    differently. *)
Record http := {
  requests_post : string → gmap string jval → http_response;
  requests_get : nat → string → gmap string jval → http_response
}.

(** [d.get(k)]: [None] (here [JNull]) when the key is absent. *)
Definition dict_get (d : gmap string jval) (k : string) : jval :=
  default JNull (d !! k).

(** [d[k]] *)
Definition dict_item (d : gmap string jval) (k : string) : result jval :=
  match d !! k with
  | Some v => Ok v
  | None => Raise (KeyError k)
  end.

(** [v == 1] in Python: the integer one, or [True]. *)
Definition eq_one (v : jval) : bool :=
  match v with
  | JNum 1 => true
  | JBool true => true
  | _ => false
  end.

(** The dictionary returned on success (lines 60-64). *)
Record captcha_data_t := {
  token : jval;
  useragent : jval;
  respKey : jval
}.

Definition max_attempts : nat := 120.

(** The result of the function together with the number of poll requests
    it made. *)
Definition solved : Type := result captcha_data_t * nat.

(** Lines 46-69: the polling loop, entered with [attempts] polls answered. *)
Equations? poll (net : http) (key : string) (id : jval) (attempts : nat) : solved
  by wf (max_attempts - attempts) lt :=
poll net key id attempts with decide (attempts < max_attempts) => {
  | left _ =>
      let result_payload : gmap string jval :=
        {[ "key" := JStr key; "action" := JStr "get"; "id" := id;
           "json" := JStr "1" ]} in
      match requests_get net attempts RESULT_URL result_payload with
      | RequestFailed e => (Raise e, S attempts)
      | NotJSON => (Raise JSONDecodeError, S attempts)
      | JSONOther => (Raise AttributeError, S attempts)
      | JSONObject result_data =>
          if eq_one (dict_get result_data "status") then
            (tok ← dict_item result_data "request";
             Ok {| token := tok;
                   useragent := dict_get result_data "useragent";
                   respKey := dict_get result_data "respKey" |},
             S attempts)
          else poll net key id (S attempts)
      end
  | right _ => (Raise (Exception "Timeout waiting for captcha solution"), attempts) }.
Proof. all: unfold max_attempts in *; lia. Qed.

(** Lines 20-73. The handler of lines 71-73 prints and re-raises, so the
    outcome is that of the body. *)
Definition solve_captcha (net : http) (key : string) (sitekey pageurl : string)
  : solved :=
  let payload : gmap string jval :=
    {[ "key" := JStr key; "method" := JStr "hcaptcha"; "sitekey" := JStr sitekey;
       "pageurl" := JStr pageurl; "json" := JStr "1" ]} in
  match requests_post net SOLVE_URL payload with
  | RequestFailed e => (Raise e, 0)
  | NotJSON => (Raise JSONDecodeError, 0)
  | JSONOther => (Raise AttributeError, 0)
  | JSONObject response_data =>
      if negb (eq_one (dict_get response_data "status")) then
        (Raise (SubmitFailed response_data), 0)
      else
        match dict_item response_data "request" with
        | Raise e => (Raise e, 0)
        | Ok id => poll net key id 0
        end
  end.

(** ** The browser and the acquisition attempt *)

(** Truthiness of the Python values the attempt branches on. *)
Definition truthy_str (o : option string) : bool :=
  match o with
  | Some s => negb (String.eqb s "")
  | None => false
  end.

Definition truthy (v : jval) : bool :=
  match v with
  | JNull => false
  | JBool b => b
  | JNum z => negb (z =? 0)%Z
  | JStr s => negb (String.eqb s "")
  | JNested nonempty => nonempty
  end.

(** The two scripts the attempt injects (lines 224-236), by what they
    interpolate. *)
Inductive script :=
| set_userAgent (ua : jval)
| set_captcha_response (tok : jval).

(** The calls made on the [SB] context manager and on [sb]. *)
Inductive sb_call :=
| SB_enter
| SB_exit
| activate_cdp_mode (url tzone : string)
| sleep (seconds : nat)
| wait_for_element_present (selector : string) (timeout : option nat)
| switch_to_frame (selector : string)
| get_attribute (selector attribute : string)
| execute_script (js : script)
| switch_to_default_content
| click (selector : string)
| type (selector text : string)
| get_page_source.

(** A printed line: a literal, or a literal followed by an interpolated
    exception or optional string. *)
Inductive message :=
| Text (s : string)
| TextExn (s : string) (e : exn)
| TextOpt (s : string) (o : option string).

(** What an attempt does, in order: a call on the browser with the exception
    it raised, if any; a call of [solve_captcha] with its outcome; a printed
    line. *)
Inductive event :=
| Called (c : sb_call) (raised : option exn)
| Solver (sitekey : string) (r : solved)
| Printed (m : message).

Definition trace := list event.

(** Everything outside the program. The browser answers a call in view of
    all that happened before it. *)
Record world := {
  environ : gmap string string;
  net : http;
  sb_do : trace → sb_call → option exn;
  sb_get_attribute : trace → string → string → result (option string);
  sb_get_page_source : trace → result string;
  BeautifulSoup : string → result document;
  time_strftime : trace → string;
  time_time : Z;
  open_w : string → option exn
}.

(** Code that acts on the world: it extends the trace and returns or
    raises. *)
Definition M (A : Type) : Type := trace → result A * trace.

#[global] Instance M_ret : MRet M := fun A a t => (Ok a, t).
#[global] Instance M_bind : MBind M := fun A B f m t =>
  match m t with
  | (Ok a, t') => f a t'
  | (Raise e, t') => (Raise e, t')
  end.

Definition raise {A} (e : exn) : M A := fun t => (Raise e, t).

Definition print (m : message) : M unit := fun t => (Ok tt, t ++ [Printed m]).

(** [try: body except Exception as e: handler(e)] *)
Definition try_except {A} (body : M A) (handler : exn → M A) : M A := fun t =>
  match body t with
  | (Ok a, t') => (Ok a, t')
  | (Raise e, t') => handler e t'
  end.

Section Attempt.
Variable w : world.

(** A call on [sb] made for its effect. *)
Definition call (c : sb_call) : M unit := fun t =>
  match sb_do w t c with
  | None => (Ok tt, t ++ [Called c None])
  | Some e => (Raise e, t ++ [Called c (Some e)])
  end.

Definition call_get_attribute (selector attribute : string) : M (option string) :=
  fun t =>
    match sb_get_attribute w t selector attribute with
    | Ok v => (Ok v, t ++ [Called (get_attribute selector attribute) None])
    | Raise e => (Raise e, t ++ [Called (get_attribute selector attribute) (Some e)])
    end.

Definition call_get_page_source : M string := fun t =>
  match sb_get_page_source w t with
  | Ok html => (Ok html, t ++ [Called get_page_source None])
  | Raise e => (Raise e, t ++ [Called get_page_source (Some e)])
  end.

Definition call_solve_captcha (sitekey pageurl : string) : M captcha_data_t :=
  fun t =>
    let r := solve_captcha (net w) (API_KEY (environ w)) sitekey pageurl in
    (r.1, t ++ [Solver sitekey r]).

Definition strftime : M string := fun t => (Ok (time_strftime w t), t).

(** [with SB(...) as sb: body]: the context is left on every path, and an
    exception raised on leaving replaces the outcome of the body. *)
Definition with_SB {A} (body : M A) : M A := fun t =>
  match call SB_enter t with
  | (Raise e, t1) => (Raise e, t1)
  | (Ok _, t1) =>
      let '(r, t2) := body t1 in
      match call SB_exit t2 with
      | (Raise e, t3) => (Raise e, t3)
      | (Ok _, t3) => (r, t3)
      end
  end.

(** The selectors, which contain double quotes. *)
Definition dq : string := String "034"%char EmptyString.
Definition search_input : string :=
  "input[id=" +:+ dq +:+ "BusinessSearch_Index_txtEntityNumber" +:+ dq +:+ "]".
Definition search_button : string := "input[id=" +:+ dq +:+ "btnSearch" +:+ dq +:+ "]".
Definition result_link : string :=
  "a[onclick*=" +:+ dq +:+ "GetBusinessSearchResultById" +:+ dq +:+ "]".
Definition panel_body : string := "div[class=" +:+ dq +:+ "panel-body" +:+ dq +:+ "]".
Definition h_captcha : string := "div[class=" +:+ dq +:+ "h-captcha" +:+ dq +:+ "]".

(** Lines 218-241: the innermost [try], entered with a truthy site key. *)
Definition solve_and_inject (sitekey : string) : M unit :=
  try_except
    (captcha_data ← call_solve_captcha sitekey NEVADA_URL;
     (if truthy (useragent captcha_data)
      then call (execute_script (set_userAgent (useragent captcha_data)))
      else mret tt);;
     call (execute_script (set_captcha_response (token captcha_data)));;
     call switch_to_default_content;;
     print (Text "Captcha response set successfully"))
    (λ captcha_error, print (TextExn "Failed to handle captcha: " captcha_error)).

(** Lines 206-247: the [try] around the iframe and the site key. *)
Definition detect_challenge : M unit :=
  try_except
    (print (Text "Waiting for iframe to be present...");;
     call (wait_for_element_present "iframe#main-iframe" None);;
     call (switch_to_frame "iframe#main-iframe");;
     print (Text "Switched to iframe");;
     sitekey ← call_get_attribute h_captcha "data-sitekey";
     print (TextOpt "Found sitekey: " sitekey);;
     match sitekey with
     | Some k =>
         if truthy_str sitekey then solve_and_inject k
         else print (Text "No captcha sitekey found in iframe")
     | None => print (Text "No captcha sitekey found in iframe")
     end)
    (λ iframe_error,
       print (TextExn "No iframe found or iframe error: " iframe_error);;
       print (Text "Proceeding without captcha solving")).

(** Lines 196-247: the probe for the search input and, without it, the
    challenge. *)
Definition detect_form : M unit :=
  try_except
    (print (Text "Checking for search input on main page...");;
     call (wait_for_element_present search_input (Some 5));;
     print (Text "Search input found on main page - no captcha needed!"))
    (λ _,
       print (Text "Search input not found on main page");;
       print (Text "Looking for captcha iframe...");;
       detect_challenge).

(** Lines 249-268: the search and the extraction. A dictionary with four
    keys is truthy, so [if business_data] tests for [None] only. *)
Definition search_and_extract (file_number : string) : M business_data :=
  print (Text ("Performing search for file number: " +:+ file_number));;
  call (sleep 3);;
  call (click search_input);;
  call (type search_input file_number);;
  call (click search_button);;
  call (click result_link);;
  call (wait_for_element_present panel_body (Some 10));;
  html ← call_get_page_source;
  now ← strftime;
  match parse_business_information (BeautifulSoup w) now html with
  | Some business_data =>
      print (Text "Business data extracted successfully");;
      mret business_data
  | None => raise (Exception "Failed to parse business information")
  end.

(** Lines 191-268: the body of the outer [try]. *)
Definition attempt (file_number : string) : M business_data :=
  with_SB
    (call (activate_cdp_mode NEVADA_URL "America/Panama");;
     call (sleep 3);;
     detect_form;;
     search_and_extract file_number).

(** Lines 272-282: the record returned when the attempt raised. *)
Definition failed_business_data (now : string) (e : exn) : business_data :=
  {| entity_information := ∅;
     registered_agent := ∅;
     officers := [];
     metadata :=
       {| source := "Nevada Secretary of State";
          scraped_date := now;
          success := false;
          error := Some e;
          file_number_searched := None;
          request_id := None |} |}.

(** Lines 186-282. *)
Definition scrape_nevada_entity (file_number : string) (t : trace)
  : business_data * trace :=
  let t0 := t ++ [Printed (Text ("Starting Nevada entity search for: " +:+ file_number))] in
  match attempt file_number t0 with
  | (Ok business_data, t1) => (business_data, t1)
  | (Raise e, t1) =>
      let t2 := t1 ++ [Printed (TextExn "Error during scraping: " e)] in
      (failed_business_data (time_strftime w t2) e, t2)
  end.
End Attempt.

(** ** [main] (lines 284-344) *)

(** What a run of the process leaves behind: its exit status, the attempt
    when one was made, and the file when one was written. *)
Record run := {
  exit_status : nat;
  attempted : option (business_data * trace);
  saved : option (string * business_data)
}.

(** Lines 304-305 *)
Definition add_metadata (file_number rid : string) (result : business_data)
  : business_data :=
  {| entity_information := entity_information result;
     registered_agent := registered_agent result;
     officers := officers result;
     metadata :=
       {| source := source (metadata result);
          scraped_date := scraped_date (metadata result);
          success := success (metadata result);
          error := error (metadata result);
          file_number_searched := Some file_number;
          request_id := Some rid |} |}.

(** [main]. [sys.exit(1)] is exit status 1 and falling off the end is 0; an
    exception while writing the file reaches the handler of line 342. The
    result of the attempt is a dictionary with four keys, so [if result]
    (line 302) holds. The lines printed by [main] are left out. *)
Definition main (w : world) : run :=
  let file_number := os_getenv (environ w) "FILE_NUMBER" "E10281132020-8" in
  let rid := os_getenv (environ w) "REQUEST_ID" ("nevada-" +:+ pretty (time_time w)) in
  if String.eqb (API_KEY (environ w)) "" then
    {| exit_status := 1; attempted := None; saved := None |}
  else
    let '(result, t) := scrape_nevada_entity w file_number [] in
    let result := add_metadata file_number rid result in
    let output_file := "scraped_data_" +:+ file_number +:+ "_" +:+ rid +:+ ".json" in
    match open_w w output_file with
    | Some _ => {| exit_status := 1; attempted := Some (result, t); saved := None |}
    | None =>
        {| exit_status := if success (metadata result) then 0 else 1;
           attempted := Some (result, t);
           saved := Some (output_file, result) |}
    end.

(** * Vocabulary and sample inputs of the properties *)

(** A field of the record: its section and its key. *)
Inductive section := Entity | Agent.

#[global] Instance section_eq_dec : EqDecision section.
Proof. solve_decision. Defined.

Definition field : Type := section * string.

Definition assign (f : field) (v : option string) (bd : business_data)
  : business_data :=
  match f.1 with
  | Entity => set_entity f.2 v bd
  | Agent => set_agent f.2 v bd
  end.

(** The six fields documented as optional. *)
Definition optional_fields : list field :=
  [(Entity, "termination_date"); (Entity, "compliance_hold");
   (Agent, "cra_agent_entity_type"); (Agent, "office_or_position");
   (Agent, "jurisdiction"); (Agent, "mailing_address")].

(** What is stored for a field, given the extracted text: null for an
    optional field whose text is empty, the text otherwise. *)
Definition stored (f : field) (value : string) : option string :=
  if bool_decide (f ∈ optional_fields) && String.eqb value "" then None
  else Some value.

(** The labels of the detail page whose rule does not depend on what has
    been recorded so far, each with the field its rule writes. *)
Definition plain_labels : list (string * field) :=
  [("Entity Name:", (Entity, "entity_name"));
   ("Entity Number:", (Entity, "entity_number"));
   ("Entity Type:", (Entity, "entity_type"));
   ("Entity Status:", (Entity, "entity_status"));
   ("Formation Date:", (Entity, "formation_date"));
   ("Termination Date:", (Entity, "termination_date"));
   ("Annual Report Due Date:", (Entity, "annual_report_due_date"));
   ("Compliance Hold:", (Entity, "compliance_hold"));
   ("Name of Individual or Legal Entity:", (Agent, "name"));
   ("Registered Agent Type:", (Agent, "registered_agent_type"));
   ("Office or Position:", (Agent, "office_or_position"));
   ("Jurisdiction:", (Agent, "jurisdiction"));
   ("Street Address:", (Agent, "street_address"));
   ("Mailing Address:", (Agent, "mailing_address"))].

(** The officer a row stands for, in the words of the specification: the
    first five cells, in order, when there are at least five. *)
Definition officer_record (cells : list string) : option officer :=
  match cells with
  | c0 :: c1 :: c2 :: c3 :: c4 :: _ =>
      Some {| title := c0; name := c1; address := c2;
              last_updated := c3; status := c4 |}
  | _ => None
  end.

(** The rows the officer loop runs over. *)
Definition table_rows (soup : document) : list (list string) :=
  match officer_table soup with
  | Some (Some rows) => rows
  | _ => []
  end.

Definition add_officers (os : list officer) (bd : business_data) : business_data :=
  {| entity_information := entity_information bd;
     registered_agent := registered_agent bd;
     officers := officers bd ++ os;
     metadata := metadata bd |}.

(** The record with its [scraped_date] replaced. *)
Definition set_scraped_date (d : string) (bd : business_data) : business_data :=
  {| entity_information := entity_information bd;
     registered_agent := registered_agent bd;
     officers := officers bd;
     metadata :=
       {| source := source (metadata bd);
          scraped_date := d;
          success := success (metadata bd);
          error := error (metadata bd);
          file_number_searched := file_number_searched (metadata bd);
          request_id := request_id (metadata bd) |} |}.

(** The record as compared when the timestamp is excluded. *)
Definition without_scraped_date : business_data → business_data :=
  set_scraped_date "".

Definition labelled (text value : string) : label :=
  {| get_text := text; next_div := Some value |}.

Definition one_panel (labels : list label) : document :=
  {| panel_bodies := [[labels]]; officer_table := None |}.

(** A detail page in the order of the site: the entity's business ID, then
    the agent's name, then the agent's business ID. *)
Definition page_with_agent_id : document :=
  one_panel
    [labelled "NV Business ID:" "NV20201791768";
     labelled "Name of Individual or Legal Entity:" "REGISTERED AGENTS INC.";
     labelled "NV Business ID:" "NV20101844335"].

Definition submit_payload (key sitekey pageurl : string) : gmap string jval :=
  {[ "key" := JStr key; "method" := JStr "hcaptcha"; "sitekey" := JStr sitekey;
     "pageurl" := JStr pageurl; "json" := JStr "1" ]}.

Definition poll_payload (key : string) (id : jval) : gmap string jval :=
  {[ "key" := JStr key; "action" := JStr "get"; "id" := id; "json" := JStr "1" ]}.

(** The classes of responses the specification speaks of. *)
Definition accepted (r : http_response) (id : jval) : Prop :=
  ∃ d, r = JSONObject d ∧ eq_one (dict_get d "status") = true
       ∧ d !! "request" = Some id.

Definition rejected (r : http_response) (d : gmap string jval) : Prop :=
  r = JSONObject d ∧ eq_one (dict_get d "status") = false.

Definition pending (r : http_response) : Prop :=
  ∃ d, r = JSONObject d ∧ eq_one (dict_get d "status") = false.

Definition ready (r : http_response) (c : captcha_data_t) : Prop :=
  ∃ d, r = JSONObject d ∧ eq_one (dict_get d "status") = true
       ∧ d !! "request" = Some (token c)
       ∧ dict_get d "useragent" = useragent c
       ∧ dict_get d "respKey" = respKey c.

(** The answer to the poll made after [k] earlier ones. *)
Definition nth_poll (net : http) (key : string) (id : jval) (k : nat)
  : http_response :=
  requests_get net k RESULT_URL (poll_payload key id).

(** Responses of the solving service, and three services: one that is ready
    at the third poll, one that never is, one that refuses the submission. *)
Definition job_accepted : http_response :=
  JSONObject {[ "status" := JNum 1; "request" := JStr "74327643" ]}.

Definition not_ready : http_response :=
  JSONObject {[ "status" := JNum 0; "request" := JStr "CAPCHA_NOT_READY" ]}.

Definition solution : http_response :=
  JSONObject {[ "status" := JNum 1; "request" := JStr "P1_eyJ0eXAi";
                "useragent" := JStr "Mozilla/5.0" ]}.

Definition ready_at_third_poll : http :=
  {| requests_post := λ _ _, job_accepted;
     requests_get := λ k _ _, if k <? 2 then not_ready else solution |}.

Definition never_ready : http :=
  {| requests_post := λ _ _, job_accepted;
     requests_get := λ _ _ _, not_ready |}.

Definition refusing : http :=
  {| requests_post := λ _ _,
       JSONObject {[ "status" := JNum 0; "request" := JStr "ERROR_WRONG_USER_KEY" ]};
     requests_get := λ _ _ _, solution |}.

(** A service whose first poll answer is not JSON and which would be ready
    from the second poll on. *)
Definition garbled_first_poll : http :=
  {| requests_post := λ _ _, job_accepted;
     requests_get := λ k _ _, if k =? 0 then NotJSON else solution |}.



(** The calls on the browser that do not belong to the detection of the form
    or to the challenge: entering and leaving the context, the navigation,
    the pauses, and the search. *)
Definition outside_challenge_step (c : sb_call) : bool :=
  match c with
  | SB_enter | SB_exit | activate_cdp_mode _ _ | sleep _ | click _ | type _ _ => true
  | wait_for_element_present selector _ => String.eqb selector panel_body
  | _ => false
  end.

(** Two sites. On the first the search input is there at once and every
    call succeeds. On the second the probe for the search input fails, so the
    challenge step is entered and a site key is found. *)
Definition a_clock : string := "2024-05-01 10:00:00".

Definition open_site (environment : gmap string string) (service : http)
    (page : document) : world :=
  {| environ := environment;
     net := service;
     sb_do := λ _ _, None;
     sb_get_attribute := λ _ _ _, Ok None;
     sb_get_page_source := λ _, Ok "<html></html>";
     BeautifulSoup := λ _, Ok page;
     time_strftime := λ _, a_clock;
     time_time := 1714557600;
     open_w := λ _, None |}.

Definition probe_timeout : exn :=
  External "Exception" "Element was not present after 5 seconds".

Definition challenged_site (service : http) (page : document) : world :=
  {| environ := ∅;
     net := service;
     sb_do := λ _ c,
       match c with
       | wait_for_element_present selector (Some 5) =>
           if String.eqb selector search_input then Some probe_timeout else None
       | _ => None
       end;
     sb_get_attribute := λ _ _ _, Ok (Some "10000000-ffff-ffff-ffff-000000000001");
     sb_get_page_source := λ _, Ok "<html></html>";
     BeautifulSoup := λ _, Ok page;
     time_strftime := λ _, a_clock;
     time_time := 1714557600;
     open_w := λ _, None |}.

Definition entity_page : document :=
  {| panel_bodies :=
       [[[labelled "Entity Name:" "BLUE FLOWER LLC";
          labelled "Entity Number:" "E10281132020-8"]]];
     officer_table :=
       Some (Some [["Manager"; "JANE ROE"; "1 Main St, Reno, NV"; "01/02/2023"; "Active"];
                   ["Managing Member"; "JOHN DOE"; "2 Main St, Reno, NV"; "01/02/2023";
                    "Active"]]) |}.

Definition empty_page : document :=
  {| panel_bodies := []; officer_table := None |}.

(** * Vocabulary of the further properties *)

(** The fields written by the labels of [plain_labels]. *)
Definition plain_fields : list field := plain_labels.*2.

(** What one label row can do to the record: nothing; write a field whose
    rule has no side condition; write the entity's business ID where there
    is none yet; write the agent's status where the agent has a name. *)
Inductive label_step (bd : business_data) : business_data → Prop :=
| step_none : label_step bd bd
| step_plain f value :
    f ∈ plain_fields → label_step bd (assign f (stored f value) bd)
| step_nv_business_id value :
    entity_information bd !! "nv_business_id" = None →
    label_step bd (set_entity "nv_business_id" (Some value) bd)
| step_status value :
    is_Some (registered_agent bd !! "name") →
    label_step bd (set_agent "status" (Some value) bd).

(** The keys the two sections can hold. *)
Definition entity_keys : list string :=
  ["entity_name"; "entity_number"; "entity_type"; "entity_status";
   "formation_date"; "nv_business_id"; "termination_date";
   "annual_report_due_date"; "compliance_hold"].

Definition agent_keys : list string :=
  ["name"; "status"; "registered_agent_type"; "office_or_position";
   "jurisdiction"; "street_address"; "mailing_address"].

(** The value held by a field of the record. *)
Definition field_value (f : field) (bd : business_data) : option (option string) :=
  match f.1 with
  | Entity => entity_information bd !! f.2
  | Agent => registered_agent bd !! f.2
  end.

(** All label rows of a document that have a value, in document order. *)
Definition valued_labels (soup : document) : list label :=
  filter (λ l, is_Some (next_div l)) (concat (concat (panel_bodies soup))).

(** The document with its label rows regrouped in one row of one panel. *)
Definition regrouped (soup : document) : document :=
  {| panel_bodies := [[valued_labels soup]]; officer_table := officer_table soup |}.

(** The document with every officer row cut after its fifth cell. *)
Definition five_cells (soup : document) : document :=
  {| panel_bodies := panel_bodies soup;
     officer_table :=
       match officer_table soup with
       | Some (Some rows) => Some (Some (take 5 <$> rows))
       | other => other
       end |}.

(** A service that differs from [never_ready] only where [solve_captcha]
    does not look: at other addresses, and after the 120th poll. *)
Definition never_ready_elsewhere : http :=
  {| requests_post := λ url _,
       if String.eqb url SOLVE_URL then job_accepted else NotJSON;
     requests_get := λ k url _,
       if (k <? 120) && String.eqb url RESULT_URL then not_ready else solution |}.

(** Events that are calls of [solve_captcha]. *)
Definition is_solver (x : event) : bool :=
  match x with
  | Solver _ _ => true
  | _ => false
  end.

(** The calls outside the detection and the challenge, the reading of the
    page source included. *)
Definition outside_call (c : sb_call) : bool :=
  match c with
  | get_page_source => true
  | _ => outside_challenge_step c
  end.

(** What holds of the events of one pass through the challenge step: a
    token or a user agent is written to the page only if a call of
    [solve_captcha] returned it; [solve_captcha] is called at most once,
    with a site key that is not empty and was read from the page; and no
    event is a call from outside the step. *)
Definition challenge_trace (w : world) (ev : trace) : Prop :=
  (∀ tok r, Called (execute_script (set_captcha_response tok)) r ∈ ev →
     ∃ k c n, Solver k (Ok c, n) ∈ ev ∧ token c = tok)
  ∧ (∀ ua r, Called (execute_script (set_userAgent ua)) r ∈ ev →
       truthy ua = true ∧ ∃ k c n, Solver k (Ok c, n) ∈ ev ∧ useragent c = ua)
  ∧ (∀ k r, Solver k r ∈ ev →
       k ≠ "" ∧ r = solve_captcha (net w) (API_KEY (environ w)) k NEVADA_URL
       ∧ Called (get_attribute h_captcha "data-sitekey") None ∈ ev)
  ∧ length (filter (λ x, is_solver x = true) ev) ≤ 1
  ∧ (∀ c r, Called c r ∈ ev → outside_call c = false).

(** A site on which the search goes through but the detail panel never
    shows. *)
Definition result_timeout : exn :=
  External "Exception" "Element was not present after 10 seconds".

Definition stalled_site : world :=
  {| environ := ∅;
     net := never_ready;
     sb_do := λ _ c,
       match c with
       | wait_for_element_present _ (Some 10) => Some result_timeout
       | _ => None
       end;
     sb_get_attribute := λ _ _ _, Ok None;
     sb_get_page_source := λ _, Ok "<html></html>";
     BeautifulSoup := λ _, Ok entity_page;
     time_strftime := λ _, a_clock;
     time_time := 1714557600;
     open_w := λ _, None |}.

(** The events of the challenge step that precede the reading of the site
    key. *)
Definition site_key_prelude : trace :=
  [Printed (Text "Waiting for iframe to be present...");
   Called (wait_for_element_present "iframe#main-iframe" None) None;
   Called (switch_to_frame "iframe#main-iframe") None;
   Printed (Text "Switched to iframe")].

(** In a pass through the challenge step entered at trace [t], a call of
    [solve_captcha] comes right after the site key was read and printed, and
    its site key is the one the page gave at that moment. *)
Definition solver_after_site_key (w : world) (t ev : trace) : Prop :=
  ∀ k r, Solver k r ∈ ev →
    ∃ post,
      ev = site_key_prelude
           ++ Called (get_attribute h_captcha "data-sitekey") None
              :: Printed (TextOpt "Found sitekey: " (Some k))
              :: Solver k r :: post
      ∧ sb_get_attribute w (t ++ site_key_prelude) h_captcha "data-sitekey"
        = Ok (Some k).

(** * Properties *)

(** ** Substring test *)

Lemma startswith_spec p s : startswith p s = true ↔ ∃ b, s = p +:+ b.
Proof.
  revert s. induction p as [|a p IH]; intros s; simpl.
  - split; [intros _; by exists s | done].
  - destruct s as [|c s]; simpl.
    + split; [done | intros [b Hb]; discriminate].
    + destruct (Ascii.eqb a c) eqn:Hac.
      * apply Ascii.eqb_eq in Hac as ->. rewrite IH.
        split; intros [b Hb]; exists b; [by rewrite Hb | by injection Hb].
      * apply Ascii.eqb_neq in Hac.
        split; [done | intros [b Hb]; injection Hb; intros; congruence].
Qed.

Lemma py_in_spec p s : py_in p s = true ↔ ∃ a b, s = a +:+ p +:+ b.
Proof.
  induction s as [|c s IH]; simpl; rewrite orb_true_iff, startswith_spec.
  - split.
    + intros [[b Hb] | ?]; [by exists EmptyString, b | done].
    + intros ([|? ?] & b & Hb); [left; by exists b | discriminate].
  - rewrite IH. split.
    + intros [[b Hb] | (a & b & Hb)]; [by exists EmptyString, b |].
      exists (String c a), b. by rewrite Hb.
    + intros ([|c' a] & b & Hb); [left; by exists b |].
      right. exists a, b. by injection Hb.
Qed.

(** ** The label rules, case by case *)

(** Case analysis on the first condition of a cascade, and the outcome of a
    branch. *)
Ltac rule :=
  match goal with
  | |- context [if ?c then _ else _] => destruct c eqn:?
  end.

Ltac outcome :=
  lazymatch goal with
  | |- set_entity ?k _ _ = _ ∨ _ => right; exists (Entity, k); reflexivity
  | |- set_agent ?k _ _ = _ ∨ _ => right; exists (Agent, k); reflexivity
  | |- _ => left; reflexivity
  end.

Lemma map_label_cases bd label_text value :
  map_label bd label_text value = bd
  ∨ ∃ f, map_label bd label_text value = assign f (stored f value) bd.
Proof.
  unfold map_label.
  repeat (rule; [try rule; outcome|]).
  outcome.
Qed.

Lemma assign_officers f v bd : officers (assign f v bd) = officers bd.
Proof. by destruct f as [[] k]. Qed.

Lemma assign_metadata f v bd : metadata (assign f v bd) = metadata bd.
Proof. by destruct f as [[] k]. Qed.

Lemma process_label_frame bd l :
  officers (process_label bd l) = officers bd
  ∧ metadata (process_label bd l) = metadata bd.
Proof.
  unfold process_label. destruct (next_div l) as [value|]; [|done].
  destruct (map_label_cases bd (replace_colon (get_text l)) value) as [-> | [f ->]];
    [done|].
  by rewrite assign_officers, assign_metadata.
Qed.

Lemma fold_left_frame {A} (step : business_data → A → business_data) :
  (∀ bd a, officers (step bd a) = officers bd ∧ metadata (step bd a) = metadata bd) →
  ∀ xs bd,
    officers (fold_left step xs bd) = officers bd
    ∧ metadata (fold_left step xs bd) = metadata bd.
Proof.
  intros Hstep xs. induction xs as [|a xs IH]; intros bd; simpl; [done|].
  destruct (IH (step bd a)) as [-> ->]. apply Hstep.
Qed.

Lemma process_panels_frame panels bd :
  officers (fold_left process_panel panels bd) = officers bd
  ∧ metadata (fold_left process_panel panels bd) = metadata bd.
Proof.
  revert bd. apply fold_left_frame. intros bd rows.
  revert bd. apply fold_left_frame. intros bd labels.
  revert bd. apply fold_left_frame. apply process_label_frame.
Qed.

(** ** The officer table *)

Lemma add_officers_nil bd : add_officers [] bd = bd.
Proof. destruct bd. unfold add_officers. simpl. by rewrite app_nil_r. Qed.

Lemma officer_record_Some cells :
  is_Some (officer_record cells) ↔ 5 ≤ length cells.
Proof.
  destruct cells as [|c0 [|c1 [|c2 [|c3 [|c4 rest]]]]]; simpl;
    (split; [intros [o Ho]; first [discriminate | lia] | intros; first [lia | eauto]]).
Qed.

Lemma process_officer_row_spec bd cells :
  process_officer_row bd cells
  = Ok (match officer_record cells with
        | Some o => append_officer o bd
        | None => bd
        end).
Proof. by destruct cells as [|c0 [|c1 [|c2 [|c3 [|c4 rest]]]]]. Qed.

Lemma process_officer_rows_spec rows bd :
  process_officer_rows bd rows = Ok (add_officers (omap officer_record rows) bd).
Proof.
  revert bd. induction rows as [|cells rows IH]; intros bd; simpl.
  - by rewrite add_officers_nil.
  - rewrite process_officer_row_spec. simpl.
    destruct (officer_record cells) as [o|]; rewrite IH; [|done].
    unfold add_officers, append_officer. simpl. by rewrite <- app_assoc.
Qed.

(** The extractor never raises on a parsed document. *)
Lemma extract_total now soup :
  extract now soup
  = Ok (add_officers (omap officer_record (table_rows soup))
          (fold_left process_panel (panel_bodies soup) (new_business_data now))).
Proof.
  unfold extract, table_rows.
  destruct (officer_table soup) as [[rows|]|]; simpl;
    by rewrite ?process_officer_rows_spec, ?add_officers_nil.
Qed.

(** C6: whatever the document, the extractor returns a record whose officers
    are, in table order, one per row of the officer table that has at least
    five cells, built from the first five cells of the row in the order
    title, name, address, last_updated, status; shorter rows are passed over
    and raise nothing. *)
Theorem officers_are_qualifying_rows now soup :
  ∃ bd, extract now soup = Ok bd
    ∧ officers bd = omap officer_record (table_rows soup)
    ∧ (∀ cells, is_Some (officer_record cells) ↔ 5 ≤ length cells)
    ∧ (∀ cells o, officer_record cells = Some o →
         cells !! 0 = Some (title o) ∧ cells !! 1 = Some (name o)
         ∧ cells !! 2 = Some (address o) ∧ cells !! 3 = Some (last_updated o)
         ∧ cells !! 4 = Some (status o)).
Proof.
  eexists. split; [apply extract_total|]. split; [|split].
  - simpl. by destruct (process_panels_frame (panel_bodies soup)
                          (new_business_data now)) as [-> _].
  - apply officer_record_Some.
  - intros cells o Ho.
    destruct cells as [|c0 [|c1 [|c2 [|c3 [|c4 rest]]]]]; try discriminate.
    by injection Ho as <-.
Qed.

(** ** The timestamp *)

Lemma map_label_set_scraped_date d bd label_text value :
  map_label (set_scraped_date d bd) label_text value
  = set_scraped_date d (map_label bd label_text value).
Proof.
  unfold map_label, in_business_data.
  cbn [entity_information registered_agent set_scraped_date].
  repeat (rule; [try rule; reflexivity|]).
  reflexivity.
Qed.

Lemma fold_left_commute {A B} (g : B → B) (step : B → A → B) :
  (∀ b a, step (g b) a = g (step b a)) →
  ∀ xs b, fold_left step xs (g b) = g (fold_left step xs b).
Proof.
  intros Hstep xs. induction xs as [|a xs IH]; intros b; simpl; [done|].
  by rewrite Hstep, IH.
Qed.

Lemma process_panels_set_scraped_date d panels bd :
  fold_left process_panel panels (set_scraped_date d bd)
  = set_scraped_date d (fold_left process_panel panels bd).
Proof.
  revert bd. apply fold_left_commute. intros bd rows.
  revert bd. apply fold_left_commute. intros bd labels.
  revert bd. apply fold_left_commute. intros bd l.
  unfold process_label. destruct (next_div l); [|done].
  apply map_label_set_scraped_date.
Qed.

Lemma extract_set_scraped_date now soup :
  extract now soup = set_scraped_date now <$> extract "" soup.
Proof.
  rewrite !extract_total. simpl. f_equal.
  change (new_business_data now) with (set_scraped_date now (new_business_data "")).
  by rewrite process_panels_set_scraped_date.
Qed.

(** C9: two runs of the extractor on one document, at whatever times, give
    records that are equal once the scraped timestamp is left out of the
    comparison (and both fail or both succeed). *)
Theorem extractor_deterministic_up_to_scraped_date
    (BeautifulSoup : string → result document) (now1 now2 html : string) :
  without_scraped_date <$> parse_business_information BeautifulSoup now1 html
  = without_scraped_date <$> parse_business_information BeautifulSoup now2 html.
Proof.
  unfold parse_business_information.
  destruct (BeautifulSoup html) as [soup|e]; simpl; [|done].
  rewrite (extract_set_scraped_date now1), (extract_set_scraped_date now2).
  by destruct (extract "" soup).
Qed.

(** ** Labels shared between sections *)

(** C3, as the code has it: a label that reads "Status" goes to
    [registered_agent.status], leaving [entity_information] alone, when the
    agent's name is already recorded; with no agent name recorded it changes
    nothing. What reaches [entity_information] is the label "Entity Status",
    whether or not an agent name precedes it. *)
Theorem status_label_dispatch bd t value :
  replace_colon t = "Status" →
  let bd' := process_label bd (labelled t value) in
  (in_dict "name" (registered_agent bd) = true →
     bd' = set_agent "status" (Some value) bd
     ∧ registered_agent bd' !! "status" = Some (Some value)
     ∧ entity_information bd' = entity_information bd)
  ∧ (in_dict "name" (registered_agent bd) = false → bd' = bd)
  ∧ (∀ t', replace_colon t' = "Entity Status" →
       process_label bd (labelled t' value)
       = set_entity "entity_status" (Some value) bd).
Proof.
  intros Ht. unfold process_label. simpl. rewrite Ht.
  split; [|split].
  - intros Hname.
    assert (map_label bd "Status" value = set_agent "status" (Some value) bd) as ->.
    { unfold map_label. simpl. by rewrite Hname. }
    split; [done|]. split; [|done]. simpl. apply lookup_insert_eq.
  - intros Hname. unfold map_label. simpl. by rewrite Hname.
  - intros t' ->. reflexivity.
Qed.

Lemma status_label_dispatch_witness :
  let bd := set_agent "name" (Some "Jane Roe") (new_business_data "2024-05-01 10:00:00") in
  let bd' := process_label bd (labelled "Status:" "Active") in
  registered_agent bd' !! "status" = Some (Some "Active")
  ∧ entity_information bd' = ∅.
Proof.
  intros bd bd'.
  destruct (status_label_dispatch bd "Status:" "Active" eq_refl) as [Hset _].
  destruct (Hset eq_refl) as (_ & Hstatus & Hentity).
  split; [exact Hstatus | exact Hentity].
Defined.

(** C3, as stated, fails: a "Status" label met before any agent name leaves
    [entity_information] empty; its value is stored nowhere. *)
Lemma status_without_agent_name_is_dropped :
  ∃ bd, extract "2024-05-01 10:00:00" (one_panel [labelled "Status:" "Active"]) = Ok bd
    ∧ entity_information bd = ∅
    ∧ registered_agent bd = ∅.
Proof. eexists. split; [apply extract_total|]. by vm_compute. Qed.

(** The rule of lines 147-148 never fires: [registered_agent.nv_business_id]
    is not written by any label. *)
Lemma map_label_agent_nv_business_id bd label_text value :
  registered_agent (map_label bd label_text value) !! "nv_business_id"
  = registered_agent bd !! "nv_business_id".
Proof.
  unfold map_label, in_business_data.
  repeat (rule; [try rule; first [done | by apply lookup_insert_ne | idtac]|]);
    [|done].
  exfalso.
  destruct (py_in "NV Business ID" label_text); simpl in *; discriminate.
Qed.

Lemma fold_left_preserves {A B C} (obs : B → C) (step : B → A → B) :
  (∀ b a, obs (step b a) = obs b) →
  ∀ xs b, obs (fold_left step xs b) = obs b.
Proof.
  intros Hstep xs. induction xs as [|a xs IH]; intros b; simpl; [done|].
  by rewrite IH, Hstep.
Qed.

(** X1: no document makes the extractor write
    [registered_agent.nv_business_id]; the rule of lines 147-148 is never
    reached. *)
Theorem agent_nv_business_id_never_set now soup :
  ∃ bd, extract now soup = Ok bd ∧ registered_agent bd !! "nv_business_id" = None.
Proof.
  eexists. split; [apply extract_total|]. simpl.
  pose (obs := λ bd : business_data, registered_agent bd !! "nv_business_id").
  change (obs (fold_left process_panel (panel_bodies soup) (new_business_data now))
          = obs (new_business_data now)).
  apply fold_left_preserves. intros bd rows.
  apply fold_left_preserves. clear bd. intros bd labels.
  apply fold_left_preserves. clear bd. intros bd l.
  unfold process_label. destruct (next_div l); [|done].
  apply map_label_agent_nv_business_id.
Qed.

(** C4: on that page the agent's "NV Business ID", met after the agent's
    name, is not stored under [registered_agent]; the first rule for the
    label takes it and, the entity's ID being set already, drops it. *)
Theorem agent_nv_business_id_is_lost now :
  ∃ bd, extract now page_with_agent_id = Ok bd
    ∧ registered_agent bd !! "name" = Some (Some "REGISTERED AGENTS INC.")
    ∧ registered_agent bd !! "nv_business_id" = None
    ∧ entity_information bd !! "nv_business_id" = Some (Some "NV20201791768").
Proof. eexists. split; [apply extract_total|]. by vm_compute. Qed.

(** ** Empty values *)

(** A label that contains "CRA Agent Entity Type" contains "Entity Type",
    which is tested first (line 121), so the rule of lines 143-144 never
    fires. *)
Lemma cra_label_is_taken_by_entity_type label_text :
  py_in "CRA Agent Entity Type" label_text = true →
  py_in "Entity Type" label_text = true.
Proof.
  rewrite !py_in_spec. intros (a & b & ->).
  exists (a +:+ "CRA Agent "), b.
  induction a as [|c a IH]; [done|].
  change (String c (a +:+ "CRA Agent Entity Type" +:+ b)
          = String c ((a +:+ "CRA Agent ") +:+ "Entity Type" +:+ b)).
  by rewrite IH.
Qed.

(** X3: whatever a label row stores, it stores in one field, and what it
    stores there is null exactly when the field is one of the six optional
    ones and the text is empty, the text itself otherwise; and each label of
    [plain_labels] does store its value, so normalised, in its own field. *)
Theorem label_values_normalised bd t value :
  (process_label bd (labelled t value) = bd
   ∨ ∃ f, process_label bd (labelled t value) = assign f (stored f value) bd)
  ∧ Forall (λ '(text, f),
              process_label bd (labelled text value) = assign f (stored f value) bd)
      plain_labels.
Proof.
  split; [apply map_label_cases|]. repeat constructor.
Qed.

Lemma map_label_cra_agent_entity_type bd label_text value :
  registered_agent (map_label bd label_text value) !! "cra_agent_entity_type"
  = registered_agent bd !! "cra_agent_entity_type".
Proof.
  unfold map_label, in_business_data.
  repeat (rule; [try rule; first [done | by apply lookup_insert_ne | idtac]|]);
    [|done].
  exfalso.
  match goal with
  | H : py_in "CRA Agent Entity Type" label_text = true |- _ =>
      apply cra_label_is_taken_by_entity_type in H
  end.
  congruence.
Qed.

(** X2: no document makes the extractor write
    [registered_agent.cra_agent_entity_type]; the rule of lines 143-144 is
    never reached. *)
Theorem cra_agent_entity_type_never_set now soup :
  ∃ bd, extract now soup = Ok bd
    ∧ registered_agent bd !! "cra_agent_entity_type" = None.
Proof.
  eexists. split; [apply extract_total|]. simpl.
  pose (obs := λ bd : business_data, registered_agent bd !! "cra_agent_entity_type").
  change (obs (fold_left process_panel (panel_bodies soup) (new_business_data now))
          = obs (new_business_data now)).
  apply fold_left_preserves. intros bd rows.
  apply fold_left_preserves. clear bd. intros bd labels.
  apply fold_left_preserves. clear bd. intros bd l.
  unfold process_label. destruct (next_div l); [|done].
  apply map_label_cra_agent_entity_type.
Qed.

(** C7: a "CRA Agent Entity Type" label with an empty value does not store
    null under [registered_agent.cra_agent_entity_type]; the empty string
    lands in [entity_information.entity_type]. *)
Theorem empty_cra_agent_entity_type_not_null now :
  ∃ bd, extract now (one_panel [labelled "CRA Agent Entity Type:" ""]) = Ok bd
    ∧ registered_agent bd !! "cra_agent_entity_type" = None
    ∧ entity_information bd !! "entity_type" = Some (Some "").
Proof. eexists. split; [apply extract_total|]. by vm_compute. Qed.

(** ** The solving protocol *)

Section Polling.
Variables (net : http) (key : string) (id : jval).

Lemma poll_step attempts :
  attempts < max_attempts →
  poll net key id attempts =
    match nth_poll net key id attempts with
    | RequestFailed e => (Raise e, S attempts)
    | NotJSON => (Raise JSONDecodeError, S attempts)
    | JSONOther => (Raise AttributeError, S attempts)
    | JSONObject result_data =>
        if eq_one (dict_get result_data "status") then
          (tok ← dict_item result_data "request";
           Ok {| token := tok;
                 useragent := dict_get result_data "useragent";
                 respKey := dict_get result_data "respKey" |},
           S attempts)
        else poll net key id (S attempts)
    end.
Proof.
  intros H. rewrite poll_equation_1.
  by destruct (decide (attempts < max_attempts)).
Qed.

Lemma poll_exhausted attempts :
  max_attempts ≤ attempts →
  poll net key id attempts
  = (Raise (Exception "Timeout waiting for captcha solution"), attempts).
Proof.
  intros H. rewrite poll_equation_1.
  by destruct (decide (attempts < max_attempts)); [lia|].
Qed.

Lemma poll_pending attempts :
  attempts < max_attempts → pending (nth_poll net key id attempts) →
  poll net key id attempts = poll net key id (S attempts).
Proof.
  intros H (d & Hd & Hstatus). by rewrite poll_step, Hd, Hstatus.
Qed.

Lemma poll_ready attempts c :
  attempts < max_attempts → ready (nth_poll net key id attempts) c →
  poll net key id attempts = (Ok c, S attempts).
Proof.
  intros H (d & Hd & Hstatus & Htok & Hua & Hrk).
  rewrite poll_step, Hd, Hstatus by done.
  unfold dict_item. rewrite Htok, Hua, Hrk. by destruct c.
Qed.

(** A run of pending polls only moves the counter. *)
Lemma poll_pending_run n attempts :
  attempts + n ≤ max_attempts →
  (∀ k, attempts ≤ k < attempts + n → pending (nth_poll net key id k)) →
  poll net key id attempts = poll net key id (attempts + n).
Proof.
  revert attempts. induction n as [|n IH]; intros attempts Hle Hpend.
  - by rewrite Nat.add_0_r.
  - rewrite poll_pending by (first [lia | apply Hpend; lia]).
    rewrite IH by (first [lia | intros k Hk; apply Hpend; lia]).
    f_equal. lia.
Qed.
End Polling.

Lemma solve_captcha_accepted net key sitekey pageurl id :
  accepted (requests_post net SOLVE_URL (submit_payload key sitekey pageurl)) id →
  solve_captcha net key sitekey pageurl = poll net key id 0.
Proof.
  intros (d & Hd & Hstatus & Hid). unfold solve_captcha.
  fold (submit_payload key sitekey pageurl).
  rewrite Hd, Hstatus. simpl. unfold dict_item. by rewrite Hid.
Qed.

(** C5: with the submission accepted, [solve_captcha] returns the token (and
    hints) of the [N]th poll, after exactly [N] polls, when that poll is the
    first to report ready and [N] is at most 120; it raises the timeout error
    after 120 polls that all report pending; and on a submission whose status
    is not success it raises the submission error without any poll. *)
Theorem solve_captcha_protocol net key sitekey pageurl :
  let intake := requests_post net SOLVE_URL (submit_payload key sitekey pageurl) in
  (∀ id N c,
     accepted intake id → 1 ≤ N ≤ 120 →
     (∀ k, k < N - 1 → pending (nth_poll net key id k)) →
     ready (nth_poll net key id (N - 1)) c →
     solve_captcha net key sitekey pageurl = (Ok c, N))
  ∧ (∀ id,
       accepted intake id →
       (∀ k, k < 120 → pending (nth_poll net key id k)) →
       solve_captcha net key sitekey pageurl
       = (Raise (Exception "Timeout waiting for captcha solution"), 120))
  ∧ (∀ d,
       rejected intake d →
       solve_captcha net key sitekey pageurl = (Raise (SubmitFailed d), 0)).
Proof.
  intros intake. split; [|split].
  - intros id N c Hacc HN Hpend Hready.
    rewrite (solve_captcha_accepted _ _ _ _ id Hacc).
    rewrite (poll_pending_run net key id (N - 1) 0)
      by (first [unfold max_attempts; lia | intros k Hk; apply Hpend; lia]).
    rewrite (poll_ready net key id (0 + (N - 1)) c)
      by (first [unfold max_attempts; lia | done]).
    f_equal. lia.
  - intros id Hacc Hpend.
    rewrite (solve_captcha_accepted _ _ _ _ id Hacc).
    rewrite (poll_pending_run net key id 120 0)
      by (first [unfold max_attempts; lia | intros k Hk; apply Hpend; lia]).
    by rewrite poll_exhausted.
  - intros d [Hd Hstatus]. unfold solve_captcha.
    fold (submit_payload key sitekey pageurl). fold intake.
    by rewrite Hd, Hstatus.
Qed.

Lemma solve_captcha_protocol_witness :
  solve_captcha ready_at_third_poll "key" "site" NEVADA_URL
  = (Ok {| token := JStr "P1_eyJ0eXAi"; useragent := JStr "Mozilla/5.0";
           respKey := JNull |}, 3)
  ∧ solve_captcha never_ready "key" "site" NEVADA_URL
    = (Raise (Exception "Timeout waiting for captcha solution"), 120)
  ∧ solve_captcha refusing "key" "site" NEVADA_URL
    = (Raise (SubmitFailed {[ "status" := JNum 0;
                              "request" := JStr "ERROR_WRONG_USER_KEY" ]}), 0).
Proof.
  split; [|split].
  - apply (proj1 (solve_captcha_protocol ready_at_third_poll "key" "site" NEVADA_URL)
             (JStr "74327643") 3).
    + eexists. split; [reflexivity|]. split; reflexivity.
    + lia.
    + intros k Hk. destruct k as [|[|k]]; [| |lia];
        (eexists; split; reflexivity).
    + eexists. split; [reflexivity|]. repeat split; reflexivity.
  - apply (proj1 (proj2 (solve_captcha_protocol never_ready "key" "site" NEVADA_URL))
             (JStr "74327643")).
    + eexists. split; [reflexivity|]. split; reflexivity.
    + intros k _. eexists. split; reflexivity.
  - apply (proj2 (proj2 (solve_captcha_protocol refusing "key" "site" NEVADA_URL))).
    split; reflexivity.
Defined.

(** C2, as the code has it: a poll answered by a JSON object whose status is
    not the ready one (or is absent) is taken as pending, and the loop goes
    on to the next attempt; a poll whose request raises, whose body is not
    JSON or not a JSON object, or that reports ready without a token, ends
    the polling at once with that error; once the attempts are used up the
    timeout error is raised. *)
Theorem poll_response_handling net key id :
  (∀ attempts, attempts < max_attempts →
     (pending (nth_poll net key id attempts) →
        poll net key id attempts = poll net key id (S attempts))
     ∧ (nth_poll net key id attempts = NotJSON →
          poll net key id attempts = (Raise JSONDecodeError, S attempts))
     ∧ (nth_poll net key id attempts = JSONOther →
          poll net key id attempts = (Raise AttributeError, S attempts))
     ∧ (∀ e, nth_poll net key id attempts = RequestFailed e →
          poll net key id attempts = (Raise e, S attempts))
     ∧ (∀ d, nth_poll net key id attempts = JSONObject d →
          eq_one (dict_get d "status") = true → d !! "request" = None →
          poll net key id attempts = (Raise (KeyError "request"), S attempts)))
  ∧ poll net key id max_attempts
    = (Raise (Exception "Timeout waiting for captcha solution"), max_attempts).
Proof.
  split; [|by apply poll_exhausted].
  intros attempts Hlt. repeat split.
  - by apply poll_pending.
  - intros Hr. by rewrite poll_step, Hr.
  - intros Hr. by rewrite poll_step, Hr.
  - intros e Hr. by rewrite poll_step, Hr.
  - intros d Hr Hstatus Hreq. rewrite poll_step, Hr, Hstatus by done.
    unfold dict_item. by rewrite Hreq.
Qed.

Lemma poll_response_handling_witness :
  poll never_ready "key" (JStr "74327643") 0
  = poll never_ready "key" (JStr "74327643") 1
  ∧ poll garbled_first_poll "key" (JStr "74327643") 0 = (Raise JSONDecodeError, 1).
Proof.
  destruct (proj1 (poll_response_handling never_ready "key" (JStr "74327643")) 0)
    as [Hpending _]; [unfold max_attempts; lia|].
  destruct (proj1 (poll_response_handling garbled_first_poll "key" (JStr "74327643")) 0)
    as (_ & Hnotjson & _); [unfold max_attempts; lia|].
  split.
  - apply Hpending. eexists. split; reflexivity.
  - apply Hnotjson. reflexivity.
Defined.

(** C2, as stated, fails: one poll answered by a body that is not JSON ends
    the polling with the decoding error, after that single poll, although
    the next poll would have been ready. *)
Lemma bad_poll_aborts_polling :
  solve_captcha garbled_first_poll "key" "site" NEVADA_URL
  = (Raise JSONDecodeError, 1)
  ∧ ready (nth_poll garbled_first_poll "key" (JStr "74327643") 1)
      {| token := JStr "P1_eyJ0eXAi"; useragent := JStr "Mozilla/5.0";
         respKey := JNull |}.
Proof.
  split; [by vm_compute|].
  eexists. split; [reflexivity|]. repeat split; reflexivity.
Qed.

(** ** The acquisition attempt *)

Ltac run_M :=
  unfold mbind, M_bind, mret, M_ret, try_except, print, raise, call,
    call_get_attribute, call_get_page_source, call_solve_captcha, strftime.

(** Case analysis on the next answer of the world. *)
Ltac ask_world :=
  match goal with
  | |- context [match sb_do ?w ?t ?c with _ => _ end] =>
      destruct (sb_do w t c) eqn:?
  | |- context [match sb_get_attribute ?w ?t ?a ?b with _ => _ end] =>
      destruct (sb_get_attribute w t a b) as [[?|]|?] eqn:?
  | |- context [solve_captcha ?n ?k ?s ?u] =>
      destruct (solve_captcha n k s u) as [[?|?] ?] eqn:?
  | |- context [if truthy ?v then _ else _] => destruct (truthy v) eqn:?
  | |- context [if truthy_str ?v then _ else _] => destruct (truthy_str v) eqn:?
  end; cbv beta iota zeta; cbn [fst snd].





Lemma parse_business_information_metadata BS now html bd :
  parse_business_information BS now html = Some bd →
  success (metadata bd) = true ∧ error (metadata bd) = None.
Proof.
  unfold parse_business_information.
  destruct (BS html) as [soup|e]; simpl; [|done].
  rewrite extract_total. intros [= <-]. simpl.
  by destruct (process_panels_frame (panel_bodies soup) (new_business_data now))
    as [_ ->].
Qed.


Section SearchSucceeds.
Variable w : world.
Hypothesis browser_ok : ∀ h c, outside_challenge_step c = true → sb_do w h c = None.
Hypothesis page_ok :
  ∀ h, ∃ html soup, sb_get_page_source w h = Ok html ∧ BeautifulSoup w html = Ok soup.


End SearchSucceeds.



(** ** The final record *)

Lemma bind_Ok {A B} (m : M A) (f : A → M B) t b t' :
  (m ≫= f) t = (Ok b, t') → ∃ a t1, m t = (Ok a, t1) ∧ f a t1 = (Ok b, t').
Proof.
  unfold mbind, M_bind. destruct (m t) as [[a|e] t1]; [|done].
  intros H. by exists a, t1.
Qed.

Lemma with_SB_Ok {A} w (body : M A) t a t' :
  with_SB w body t = (Ok a, t') → ∃ t1 t2, body t1 = (Ok a, t2).
Proof.
  unfold with_SB. destruct (call w SB_enter t) as [[[]|e] t1]; [|done].
  destruct (body t1) as [r t2] eqn:Hbody.
  destruct (call w SB_exit t2) as [[[]|e] t3]; [|done].
  intros [= -> ->]. by exists t1, t2.
Qed.

Lemma search_and_extract_Ok w file_number t bd t' :
  search_and_extract w file_number t = (Ok bd, t') →
  ∃ now html, parse_business_information (BeautifulSoup w) now html = Some bd.
Proof.
  intros H.
  repeat (apply bind_Ok in H as (? & ? & _ & H)).
  destruct (parse_business_information _ _ _) as [bd'|] eqn:Hparse; [|done].
  apply bind_Ok in H as (? & ? & _ & H).
  unfold mret, M_ret in H. injection H as <- _. by eexists _, _.
Qed.

Lemma attempt_Ok w file_number t bd t' :
  attempt w file_number t = (Ok bd, t') →
  ∃ now soup, extract now soup = Ok bd.
Proof.
  intros H. apply with_SB_Ok in H as (t1 & t2 & H).
  do 3 (apply bind_Ok in H as (? & ? & _ & H)).
  apply search_and_extract_Ok in H as (now & html & H).
  unfold parse_business_information in H.
  destruct (BeautifulSoup w html) as [soup|]; simpl in H; [|done].
  exists now, soup. destruct (extract now soup) as [bd'|]; [|done].
  by injection H as ->.
Qed.

Lemma extract_metadata now soup bd :
  extract now soup = Ok bd →
  success (metadata bd) = true ∧ error (metadata bd) = None.
Proof.
  rewrite extract_total. intros [= <-]. simpl.
  by destruct (process_panels_frame (panel_bodies soup) (new_business_data now))
    as [_ ->].
Qed.

Lemma with_SB_Ok_trace {A} w (body : M A) t a t' :
  with_SB w body t = (Ok a, t') →
  ∃ t2, body (t ++ [Called SB_enter None]) = (Ok a, t2)
        ∧ t' = t2 ++ [Called SB_exit None].
Proof.
  unfold with_SB, call. destruct (sb_do w t SB_enter) as [e|]; [done|].
  destruct (body _) as [r t2] eqn:Hbody.
  destruct (sb_do w t2 SB_exit) as [e|]; [done|].
  intros [= -> <-]. by exists t2.
Qed.

(** A search that returns, returns the record parsed from the page source
    it read, at the time it read it. *)
Lemma search_and_extract_page w file_number t bd t' :
  search_and_extract w file_number t = (Ok bd, t') →
  ∃ h html,
    sb_get_page_source w h = Ok html
    ∧ parse_business_information (BeautifulSoup w)
        (time_strftime w (h ++ [Called get_page_source None])) html = Some bd
    ∧ t' = h ++ [Called get_page_source None;
                 Printed (Text "Business data extracted successfully")].
Proof.
  intros H. unfold search_and_extract in H.
  do 7 (apply bind_Ok in H as (? & ? & _ & H)).
  apply bind_Ok in H as (html & t1 & Hsource & H).
  apply bind_Ok in H as (now & t2 & Hnow & H).
  unfold call_get_page_source in Hsource.
  match type of Hsource with
  | context [sb_get_page_source w ?h] =>
      exists h, html; destruct (sb_get_page_source w h) as [html'|e]; [|done]
  end.
  injection Hsource as -> <-.
  unfold strftime in Hnow. injection Hnow as <- <-.
  destruct (parse_business_information _ _ _) as [bd'|]; [|done].
  unfold mbind, M_bind, print, mret, M_ret in H. injection H as <- <-.
  split; [done|]. split; [done|]. by rewrite <- app_assoc.
Qed.

Lemma attempt_page w file_number t bd t' :
  attempt w file_number t = (Ok bd, t') →
  ∃ h html soup,
    t' = h ++ [Called get_page_source None;
               Printed (Text "Business data extracted successfully");
               Called SB_exit None]
    ∧ sb_get_page_source w h = Ok html
    ∧ BeautifulSoup w html = Ok soup
    ∧ extract (time_strftime w (h ++ [Called get_page_source None])) soup = Ok bd.
Proof.
  intros H. apply with_SB_Ok_trace in H as (t2 & H & ->).
  do 3 (apply bind_Ok in H as (? & ? & _ & H)).
  apply search_and_extract_page in H as (h & html & Hsource & Hparse & ->).
  unfold parse_business_information in Hparse.
  destruct (BeautifulSoup w html) as [soup|] eqn:Hsoup; simpl in Hparse; [|done].
  exists h, html, soup. rewrite <- app_assoc. repeat split; try done.
  destruct (extract _ soup) as [bd'|]; [|done]. by injection Hparse as ->.
Qed.

(** C1, as the code has it: the final record of an attempt either carries
    success=true and no error, and is then what the extractor returned for
    the page (with whatever fields it found, possibly none): the record
    extracted, at the time of the call, from the soup of the page source that
    the browser gave at the end of the search; or it has empty sections,
    success=false and the error set. *)
Theorem final_record_cases w file_number t :
  let run := scrape_nevada_entity w file_number t in
  let r := run.1 in
  if success (metadata r)
  then error (metadata r) = None
       ∧ ∃ h html soup,
           run.2 = h ++ [Called get_page_source None;
                         Printed (Text "Business data extracted successfully");
                         Called SB_exit None]
           ∧ sb_get_page_source w h = Ok html
           ∧ BeautifulSoup w html = Ok soup
           ∧ extract (time_strftime w (h ++ [Called get_page_source None])) soup
             = Ok r
  else entity_information r = ∅ ∧ registered_agent r = ∅ ∧ officers r = []
       ∧ is_Some (error (metadata r)).
Proof.
  cbv zeta. unfold scrape_nevada_entity.
  destruct (attempt w file_number _) as [[bd|e] t1] eqn:Hattempt; simpl.
  - apply attempt_page in Hattempt as (h & html & soup & -> & Hsource & Hsoup & Hextract).
    destruct (extract_metadata _ soup bd Hextract) as [-> ->].
    split; [done|]. by exists h, html, soup.
  - eauto.
Qed.

(** C1, as stated, fails: on a page without any known label the final
    record has an empty [entity_information] and success=true. *)
Lemma empty_record_reported_as_success :
  let r := (scrape_nevada_entity (open_site ∅ never_ready empty_page)
              "E10281132020-8" []).1 in
  entity_information r = ∅ ∧ success (metadata r) = true
  ∧ error (metadata r) = None.
Proof. by vm_compute. Qed.

(** ** The credential check *)

(** C10, as the code has it: a run makes an acquisition attempt unless the
    variable SOLVECAPTCHA_API_KEY is set to the empty string, in which case
    it exits with status 1 before any attempt; with the variable unset the
    fallback key is used and the attempt is made. *)
Theorem credential_check w :
  (is_Some (attempted (main w)) ↔ environ w !! "SOLVECAPTCHA_API_KEY" ≠ Some "")
  ∧ (environ w !! "SOLVECAPTCHA_API_KEY" = None →
       API_KEY (environ w) = "e8241ace650146ad502519d5ef2bf819"
       ∧ is_Some (attempted (main w)))
  ∧ (environ w !! "SOLVECAPTCHA_API_KEY" = Some "" →
       main w = {| exit_status := 1; attempted := None; saved := None |}).
Proof.
  assert (∀ key, API_KEY (environ w) = key → key ≠ "" →
                 is_Some (attempted (main w))) as Hrun.
  { intros key Hkey Hne. unfold main. rewrite Hkey.
    destruct (String.eqb_spec key "") as [|_]; [done|].
    destruct (scrape_nevada_entity _ _ _) as [result t].
    by destruct (open_w w _). }
  assert (environ w !! "SOLVECAPTCHA_API_KEY" = Some "" →
          main w = {| exit_status := 1; attempted := None; saved := None |}) as Hexit.
  { intros Hset. unfold main, API_KEY, os_getenv. by rewrite Hset. }
  split; [|split; [|done]].
  - split.
    + intros Hsome Hset. rewrite (Hexit Hset) in Hsome. by destruct Hsome.
    + intros Hne. unfold API_KEY, os_getenv in Hrun.
      destruct (environ w !! "SOLVECAPTCHA_API_KEY") as [key|] eqn:Hkey.
      * apply (Hrun key); [done | congruence].
      * by apply (Hrun "e8241ace650146ad502519d5ef2bf819").
  - intros Hunset. unfold API_KEY, os_getenv in *. rewrite Hunset in *.
    split; [done|]. by apply (Hrun "e8241ace650146ad502519d5ef2bf819").
Qed.

Lemma credential_check_witness :
  is_Some (attempted (main (open_site ∅ never_ready entity_page))).
Proof.
  apply (proj1 (proj2 (credential_check (open_site ∅ never_ready entity_page)))).
  reflexivity.
Defined.

(** C10, as stated, fails: with the variable present but empty the check of
    lines 295-297 ends the run with status 1 and no attempt is made. *)
Lemma empty_credential_aborts :
  main (open_site {[ "SOLVECAPTCHA_API_KEY" := "" ]} never_ready entity_page)
  = {| exit_status := 1; attempted := None; saved := None |}.
Proof. by vm_compute. Qed.

(** * Further properties *)

(** ** The label loop as a step relation *)

Ltac in_list := apply (bool_decide_unpack _); by vm_compute.

Ltac plain_step bd f v :=
  let H := fresh in
  assert (f ∈ plain_fields) as H by in_list;
  exact (step_plain bd f v H).

Ltac plain_outcome :=
  lazymatch goal with
  | |- label_step ?bd (set_entity ?k (value_or_None ?v) ?bd) => plain_step bd (Entity, k) v
  | |- label_step ?bd (set_agent ?k (value_or_None ?v) ?bd) => plain_step bd (Agent, k) v
  | |- label_step ?bd (set_entity ?k (Some ?v) ?bd) => plain_step bd (Entity, k) v
  | |- label_step ?bd (set_agent ?k (Some ?v) ?bd) => plain_step bd (Agent, k) v
  | |- label_step ?bd ?bd => apply step_none
  end.

Lemma in_dict_true k d : in_dict k d = true ↔ is_Some (d !! k).
Proof. unfold in_dict. apply bool_decide_eq_true. Qed.

Lemma in_dict_false k (d : gmap string (option string)) :
  in_dict k d = false ↔ d !! k = None.
Proof.
  unfold in_dict. rewrite bool_decide_eq_false, <- eq_None_not_Some. done.
Qed.

Lemma map_label_step bd label_text value :
  label_step bd (map_label bd label_text value).
Proof.
  unfold map_label, in_business_data.
  repeat (rule; [try rule; try plain_outcome|]); try plain_outcome.
  - apply step_nv_business_id. apply in_dict_false.
    by destruct (in_dict "nv_business_id" (entity_information bd)).
  - apply step_status. apply in_dict_true.
    by repeat match goal with H : _ && _ = true |- _ => apply andb_true_iff in H as [? ?] end.
  - exfalso.
    match goal with
    | H : py_in "CRA Agent Entity Type" label_text = true |- _ =>
        apply cra_label_is_taken_by_entity_type in H
    end.
    congruence.
  - exfalso. destruct (py_in "NV Business ID" label_text); simpl in *; discriminate.
Qed.

Lemma process_label_step bd l : label_step bd (process_label bd l).
Proof.
  unfold process_label. destruct (next_div l); [apply map_label_step | apply step_none].
Qed.

(** A property that holds at the start and is kept by every step holds of
    the record after any run of label rows. *)
Lemma fold_left_invariant {A} (P : business_data → Prop)
    (step : business_data → A → business_data) :
  (∀ bd a, P bd → P (step bd a)) →
  ∀ xs bd, P bd → P (fold_left step xs bd).
Proof.
  intros Hstep xs. induction xs as [|a xs IH]; intros bd Hbd; simpl; [done|].
  apply IH. by apply Hstep.
Qed.

Lemma process_panels_invariant (P : business_data → Prop) :
  (∀ bd bd', P bd → label_step bd bd' → P bd') →
  ∀ panels bd, P bd → P (fold_left process_panel panels bd).
Proof.
  intros Hstep. apply fold_left_invariant. intros bd rows.
  apply fold_left_invariant. clear bd. intros bd labels.
  apply fold_left_invariant. clear bd. intros bd l Hbd.
  apply (Hstep bd); [done | apply process_label_step].
Qed.

(** The same for the record the extractor returns, when the property does
    not look at the officers. *)
Lemma extract_invariant (P : business_data → Prop) now soup :
  P (new_business_data now) →
  (∀ bd bd', P bd → label_step bd bd' → P bd') →
  (∀ os bd, P bd → P (add_officers os bd)) →
  ∃ bd, extract now soup = Ok bd ∧ P bd.
Proof.
  intros Hnew Hstep Hofficers. eexists. split; [apply extract_total|].
  apply Hofficers. by apply process_panels_invariant.
Qed.

Lemma field_value_assign f g v bd :
  field_value g (assign f v bd) = if decide (f = g) then Some v else field_value g bd.
Proof.
  unfold field_value, assign. destruct (decide (f = g)) as [<-|Hne].
  - destruct f as [[] k]; simpl; apply lookup_insert_eq.
  - destruct f as [[] k], g as [[] k']; simpl; try done;
      apply lookup_insert_ne; congruence.
Qed.

(** ** The shape of the extracted sections *)

(** X4: the extractor never raises on a parsed document, and the sections
    of its record hold no key besides the nine entity keys and the seven
    agent keys listed. *)
Theorem extracted_keys_are_known now soup :
  ∃ bd, extract now soup = Ok bd
    ∧ (∀ k, is_Some (entity_information bd !! k) → k ∈ entity_keys)
    ∧ (∀ k, is_Some (registered_agent bd !! k) → k ∈ agent_keys).
Proof.
  apply (extract_invariant
           (λ bd, (∀ k, is_Some (entity_information bd !! k) → k ∈ entity_keys)
                  ∧ (∀ k, is_Some (registered_agent bd !! k) → k ∈ agent_keys))).
  - simpl. split; intros k [v Hv]; by rewrite lookup_empty in Hv.
  - intros bd bd' [He Ha] Hstep.
    assert (∀ (d : gmap string (option string)) j v (keys : list string),
              (∀ k, is_Some (d !! k) → k ∈ keys) → j ∈ keys →
              ∀ k, is_Some (<[j:=v]> d !! k) → k ∈ keys) as Hins.
    { intros d j v keys Hd Hj k. destruct (decide (j = k)) as [<-|Hne]; [done|].
      rewrite lookup_insert_ne by done. apply Hd. }
    destruct Hstep as [|[[] j] value Hj| |]; simpl; try done.
    + split; [|done]. apply Hins; [done|].
      apply (bool_decide_unpack _).
      revert Hj. unfold plain_fields. simpl. rewrite !elem_of_cons, elem_of_nil.
      intros Hj.
      repeat destruct Hj as [Hj|Hj];
        first [discriminate | done | injection Hj as ->; by vm_compute].
    + split; [done|]. apply Hins; [done|].
      apply (bool_decide_unpack _).
      revert Hj. unfold plain_fields. simpl. rewrite !elem_of_cons, elem_of_nil.
      intros Hj.
      repeat destruct Hj as [Hj|Hj];
        first [discriminate | done | injection Hj as ->; by vm_compute].
    + split; [|done]. apply Hins; [done | in_list].
    + split; [done|]. apply Hins; [done | in_list].
  - done.
Qed.

(** X5: in the record of any document a field holds null only if it is one
    of the six optional fields, and an optional field never holds the empty
    string. *)
Theorem null_only_in_optional_fields now soup :
  ∃ bd, extract now soup = Ok bd
    ∧ ∀ f, (field_value f bd = Some None → f ∈ optional_fields)
           ∧ (field_value f bd = Some (Some "") → f ∉ optional_fields).
Proof.
  apply (extract_invariant
           (λ bd, ∀ f, (field_value f bd = Some None → f ∈ optional_fields)
                       ∧ (field_value f bd = Some (Some "") → f ∉ optional_fields))).
  - intros [[] k]; unfold field_value; simpl; by rewrite lookup_empty.
  - intros bd bd' Hbd Hstep g.
    assert (∀ f value,
              (stored f value = None → f ∈ optional_fields)
              ∧ (stored f value = Some "" → f ∉ optional_fields)) as Hstored.
    { intros f value. unfold stored.
      destruct (bool_decide_reflect (f ∈ optional_fields)) as [Hf|Hf]; simpl.
      - destruct (String.eqb_spec value "") as [->|Hne]; [done|].
        split; [done|]. by intros [= ->].
      - done. }
    destruct Hstep as [|f value Hf|value Hnone|value Hname].
    + apply Hbd.
    + rewrite field_value_assign. case_decide as Hfg; [|apply Hbd]. subst g.
      destruct (Hstored f value) as [H1 H2].
      split; intros [= H]; auto.
    + change (set_entity "nv_business_id" (Some value) bd)
        with (assign (Entity, "nv_business_id") (Some value) bd).
      rewrite field_value_assign. case_decide as Hfg; [|apply Hbd]. subst g.
      split; [done|]. intros _. by intros H%(bool_decide_pack _).
    + change (set_agent "status" (Some value) bd)
        with (assign (Agent, "status") (Some value) bd).
      rewrite field_value_assign. case_decide as Hfg; [|apply Hbd]. subst g.
      split; [done|]. intros _. by intros H%(bool_decide_pack _).
  - intros os bd Hbd. apply Hbd.
Qed.

(** X6: in the record of any document the agent has a status only if it has
    a name. *)
Theorem agent_status_needs_name now soup :
  ∃ bd, extract now soup = Ok bd
    ∧ (is_Some (registered_agent bd !! "status") →
       is_Some (registered_agent bd !! "name")).
Proof.
  apply (extract_invariant
           (λ bd, is_Some (registered_agent bd !! "status") →
                  is_Some (registered_agent bd !! "name"))).
  - simpl. rewrite lookup_empty. by intros [? ?].
  - intros bd bd' Hbd Hstep.
    destruct Hstep as [|[[] j] value Hj| |value Hname]; simpl; try done.
    + destruct (decide (j = "name")) as [->|Hne].
      * rewrite lookup_insert_eq. eauto.
      * rewrite (lookup_insert_ne _ j "name") by done.
        destruct (decide (j = "status")) as [->|Hne'].
        -- exfalso. revert Hj. unfold plain_fields. simpl.
           rewrite !elem_of_cons, elem_of_nil.
           intros Hj.
      repeat destruct Hj as [Hj|Hj];
        first [discriminate | done | injection Hj as ->; by vm_compute].
        -- by rewrite lookup_insert_ne.
    + intros _. by rewrite lookup_insert_ne.
  - done.
Qed.

(** X7: once the entity's business ID is recorded no later label row
    changes it: the first "NV Business ID" of a page wins. *)
Theorem entity_nv_business_id_first_wins panels bd v :
  entity_information bd !! "nv_business_id" = Some v →
  entity_information (fold_left process_panel panels bd) !! "nv_business_id" = Some v.
Proof.
  intros Hv. revert bd Hv.
  apply (process_panels_invariant
           (λ bd, entity_information bd !! "nv_business_id" = Some v)).
  intros bd bd' Hbd Hstep.
  destruct Hstep as [|[[] j] value Hj|value Hnone|]; simpl; try done.
  - rewrite lookup_insert_ne; [done|]. intros ->.
    revert Hj. unfold plain_fields. simpl. rewrite !elem_of_cons, elem_of_nil.
    intros Hj. repeat destruct Hj as [Hj|Hj]; first [discriminate | done].
  - congruence.
Qed.

Lemma entity_nv_business_id_first_wins_witness :
  entity_information
    (fold_left process_panel
       [[[labelled "Entity Name:" "BLUE FLOWER LLC";
          labelled "NV Business ID:" "NV20101844335"]]]
       (set_entity "nv_business_id" (Some "NV20201791768") (new_business_data a_clock)))
  !! "nv_business_id" = Some (Some "NV20201791768").
Proof.
  apply entity_nv_business_id_first_wins. simpl. apply lookup_insert_eq.
Defined.

(** ** Grouping of the label rows *)

Lemma fold_left_concat {A B} (step : B → A → B) (xss : list (list A)) (b : B) :
  fold_left (λ b xs, fold_left step xs b) xss b = fold_left step (concat xss) b.
Proof.
  revert b. induction xss as [|xs xss IH]; intros b; simpl; [done|].
  by rewrite IH, fold_left_app.
Qed.

Lemma process_panels_concat panels bd :
  fold_left process_panel panels bd
  = fold_left process_label (concat (concat panels)) bd.
Proof.
  change (fold_left (λ b rows, fold_left process_row rows b) panels bd
          = fold_left process_label (concat (concat panels)) bd).
  rewrite fold_left_concat.
  change (fold_left (λ b labels, fold_left process_label labels b) (concat panels) bd
          = fold_left process_label (concat (concat panels)) bd).
  apply fold_left_concat.
Qed.

Lemma process_labels_valued labels bd :
  fold_left process_label (filter (λ l, is_Some (next_div l)) labels) bd
  = fold_left process_label labels bd.
Proof.
  revert bd. induction labels as [|l labels IH]; intros bd; [done|].
  rewrite filter_cons. case_decide as Hl; simpl.
  - apply IH.
  - rewrite IH. f_equal. unfold process_label.
    destruct (next_div l); [|done]. by destruct Hl.
Qed.

(** X8: the record depends on the label rows only through their sequence in
    document order: how they are grouped in rows and panels, and the rows
    that have no value, make no difference. *)
Theorem grouping_is_irrelevant now soup :
  extract now (regrouped soup) = extract now soup.
Proof.
  rewrite !extract_total. unfold regrouped, table_rows. simpl.
  unfold process_panel at 1. simpl. unfold process_row at 1.
  unfold valued_labels. by rewrite process_labels_valued, process_panels_concat.
Qed.

(** ** The parser as a whole *)

(** X9: [parse_business_information] returns [None] exactly when the soup
    cannot be built; otherwise its record carries the fixed source, the time
    of the call, success=true and no error. *)
Theorem parse_fails_only_without_soup
    (BeautifulSoup : string → result document) (now html : string) :
  (parse_business_information BeautifulSoup now html = None
   ↔ ∃ e, BeautifulSoup html = Raise e)
  ∧ ∀ bd, parse_business_information BeautifulSoup now html = Some bd →
          metadata bd
          = {| source := "Nevada Secretary of State"; scraped_date := now;
               success := true; error := None;
               file_number_searched := None; request_id := None |}.
Proof.
  unfold parse_business_information.
  destruct (BeautifulSoup html) as [soup|e]; simpl.
  - rewrite extract_total. split.
    + split; [done | by intros [e He]].
    + intros bd [= <-]. simpl.
      by destruct (process_panels_frame (panel_bodies soup) (new_business_data now))
        as [_ ->].
  - split; [|done]. split; [by eexists | done].
Qed.

(** ** Substring matching *)

Lemma replace_colon_app a b :
  replace_colon (a +:+ b) = replace_colon a +:+ replace_colon b.
Proof.
  induction a as [|c a IH]; simpl; [done|].
  destruct (Ascii.eqb c ":"); [done|]. simpl. by rewrite IH.
Qed.

(** X10: the rules match by containment and the first one wins: a label
    that contains "Entity Name" anywhere in its text sets [entity_name],
    whatever else the text holds. *)
Theorem entity_name_matches_anywhere bd a b value :
  process_label bd (labelled (a +:+ "Entity Name" +:+ b) value)
  = set_entity "entity_name" (Some value) bd.
Proof.
  unfold process_label. simpl. rewrite !replace_colon_app.
  change (replace_colon "Entity Name") with "Entity Name".
  unfold map_label.
  assert (py_in "Entity Name" (replace_colon a +:+ "Entity Name" +:+ replace_colon b)
          = true) as ->; [|done].
  apply py_in_spec. by eexists _, _.
Qed.

(** ** Officer rows *)

Lemma officer_record_take cells : officer_record (take 5 cells) = officer_record cells.
Proof. by destruct cells as [|c0 [|c1 [|c2 [|c3 [|c4 rest]]]]]. Qed.

Lemma omap_officer_record_length (rows : list (list string)) :
  length (omap officer_record rows)
  = length (filter (λ cells, 5 ≤ length cells) rows).
Proof.
  induction rows as [|cells rows IH]; [done|].
  rewrite filter_cons.
  change (omap officer_record (cells :: rows))
    with (match officer_record cells with
          | Some o => o :: omap officer_record rows
          | None => omap officer_record rows
          end).
  destruct (decide (5 ≤ length cells)) as [Hlen|Hlen].
  - apply officer_record_Some in Hlen as [o ->].
    rewrite !length_cons. by rewrite IH.
  - destruct (officer_record cells) as [o|] eqn:Ho; [|done].
    destruct Hlen. apply officer_record_Some. by eexists.
Qed.

Lemma omap_officer_record_take (rows : list (list string)) :
  omap officer_record (take 5 <$> rows) = omap officer_record rows.
Proof.
  induction rows as [|cells rows IH]; [done|].
  rewrite fmap_cons.
  change (match officer_record (take 5 cells) with
          | Some o => o :: omap officer_record (take 5 <$> rows)
          | None => omap officer_record (take 5 <$> rows)
          end
          = match officer_record cells with
            | Some o => o :: omap officer_record rows
            | None => omap officer_record rows
            end).
  by rewrite officer_record_take, IH.
Qed.

(** X11: cells after the fifth of an officer row are never read, and the
    number of officers is the number of rows with at least five cells. *)
Theorem officer_rows_beyond_five_cells now soup :
  ∃ bd, extract now soup = Ok bd
    ∧ extract now (five_cells soup) = Ok bd
    ∧ length (officers bd)
      = length (filter (λ cells, 5 ≤ length cells) (table_rows soup)).
Proof.
  eexists. split; [apply extract_total|]. split.
  - rewrite extract_total. do 2 f_equal.
    unfold five_cells, table_rows. simpl.
    destruct (officer_table soup) as [[rows|]|]; try done.
    apply omap_officer_record_take.
  - simpl.
    destruct (process_panels_frame (panel_bodies soup) (new_business_data now))
      as [-> _].
    apply omap_officer_record_length.
Qed.

(** ** The solving protocol, from the caller's side *)

Lemma poll_Ok_inv net key id c n m :
  ∀ attempts, max_attempts - attempts = m →
  poll net key id attempts = (Ok c, n) →
  attempts < n ≤ max_attempts
  ∧ (∀ k, attempts ≤ k < n - 1 → pending (nth_poll net key id k))
  ∧ ready (nth_poll net key id (n - 1)) c.
Proof.
  induction m as [|m IH]; intros attempts Hm Hpoll.
  - rewrite poll_exhausted in Hpoll by lia. discriminate.
  - assert (attempts < max_attempts) as Hlt by lia.
    rewrite poll_step in Hpoll by done.
    destruct (nth_poll net key id attempts) as [e| |d|] eqn:Hnth; try discriminate.
    destruct (eq_one (dict_get d "status")) eqn:Hstatus.
    + unfold dict_item in Hpoll.
      destruct (d !! "request") as [tok|] eqn:Htok; [|discriminate].
      injection Hpoll as <- <-.
      replace (S attempts - 1) with attempts by lia.
      split; [lia|]. split; [intros k Hk; lia|].
      exists d. by rewrite Hnth.
    + apply IH in Hpoll as (Hn & Hpend & Hready); [|lia].
      split; [lia|]. split; [|done].
      intros k Hk. destruct (decide (k = attempts)) as [->|Hne].
      * exists d. by rewrite Hnth.
      * apply Hpend. lia.
Qed.

(** X12: when [solve_captcha] returns a token after [n] polls, the
    submission was accepted, [n] is between 1 and 120, the polls before the
    [n]th reported pending, and the [n]th reported ready with that token
    and those hints. *)
Theorem solve_captcha_success_means_ready net key sitekey pageurl c n :
  solve_captcha net key sitekey pageurl = (Ok c, n) →
  ∃ id,
    accepted (requests_post net SOLVE_URL (submit_payload key sitekey pageurl)) id
    ∧ 1 ≤ n ≤ 120
    ∧ (∀ k, k < n - 1 → pending (nth_poll net key id k))
    ∧ ready (nth_poll net key id (n - 1)) c.
Proof.
  unfold solve_captcha. fold (submit_payload key sitekey pageurl).
  destruct (requests_post net SOLVE_URL _) as [e| |d|]; try discriminate.
  destruct (eq_one (dict_get d "status")) eqn:Hstatus; [|discriminate]. simpl.
  unfold dict_item. destruct (d !! "request") as [id|] eqn:Hid; [|discriminate].
  intros Hpoll. exists id.
  apply (poll_Ok_inv _ _ _ _ _ max_attempts) in Hpoll as (Hn & Hpend & Hready);
    [|lia].
  split; [by exists d|]. split; [unfold max_attempts in Hn; lia|].
  split; [|done]. intros k Hk. apply Hpend. lia.
Qed.

Lemma solve_captcha_success_means_ready_witness :
  ∃ id,
    accepted (requests_post ready_at_third_poll SOLVE_URL
                (submit_payload "key" "site" NEVADA_URL)) id
    ∧ 1 ≤ 3 ≤ 120
    ∧ (∀ k, k < 3 - 1 → pending (nth_poll ready_at_third_poll "key" id k))
    ∧ ready (nth_poll ready_at_third_poll "key" id (3 - 1))
        {| token := JStr "P1_eyJ0eXAi"; useragent := JStr "Mozilla/5.0";
           respKey := JNull |}.
Proof.
  apply (solve_captcha_success_means_ready ready_at_third_poll "key" "site" NEVADA_URL).
  by vm_compute.
Defined.

Lemma poll_count net key id m :
  ∀ attempts, max_attempts - attempts = m → attempts ≤ max_attempts →
  (poll net key id attempts).2 ≤ max_attempts
  ∧ (attempts < max_attempts → attempts < (poll net key id attempts).2).
Proof.
  induction m as [|m IH]; intros attempts Hm Hle.
  - rewrite poll_exhausted by lia. simpl. lia.
  - assert (attempts < max_attempts) as Hlt by lia.
    rewrite poll_step by done.
    destruct (nth_poll net key id attempts) as [e| |d|]; simpl; try lia.
    destruct (eq_one (dict_get d "status")); simpl; [lia|].
    destruct (IH (S attempts)) as [Hmax Hmore]; [lia | lia |].
    split; [done|]. intros _.
    destruct (decide (S attempts < max_attempts)) as [Hlt'|Hge]; [specialize (Hmore Hlt'); lia|].
    rewrite poll_exhausted by lia. simpl. lia.
Qed.

(** X13: [solve_captcha] never makes more than 120 polls, and it makes at
    least one exactly when the submission was accepted (status 1 with a job
    id): a refused, failed or malformed submission is never followed by a
    poll. *)
Theorem solve_captcha_poll_count net key sitekey pageurl :
  let polls := (solve_captcha net key sitekey pageurl).2 in
  polls ≤ 120
  ∧ (1 ≤ polls
     ↔ ∃ id, accepted (requests_post net SOLVE_URL
                         (submit_payload key sitekey pageurl)) id).
Proof.
  unfold solve_captcha. fold (submit_payload key sitekey pageurl).
  destruct (requests_post net SOLVE_URL _) as [e| |d|] eqn:Hpost; simpl;
    try (split; [lia|]; split; [lia | by intros (id & d & ? & _)]).
  destruct (eq_one (dict_get d "status")) eqn:Hstatus; simpl.
  - unfold dict_item. destruct (d !! "request") as [id|] eqn:Hid; simpl.
    + destruct (poll_count net key id max_attempts 0) as [Hmax Hmore];
        [lia | lia |].
      split; [done|]. split.
      * intros _. exists id, d. done.
      * intros _. apply Hmore. unfold max_attempts. lia.
    + split; [lia|]. split; [lia|].
      intros (id & d' & [= <-] & _ & Hid'). congruence.
  - split; [lia|]. split; [lia|].
    intros (id & d' & [= <-] & Hst & _). congruence.
Qed.

Lemma poll_ext net1 net2 key id :
  (∀ k, k < max_attempts → nth_poll net1 key id k = nth_poll net2 key id k) →
  ∀ m attempts, max_attempts - attempts = m →
  poll net1 key id attempts = poll net2 key id attempts.
Proof.
  intros Hsame. induction m as [|m IH]; intros attempts Hm.
  - by rewrite !poll_exhausted by lia.
  - rewrite (poll_step net1 key id attempts), (poll_step net2 key id attempts) by lia.
    rewrite Hsame by lia.
    destruct (nth_poll net2 key id attempts) as [e| |d|]; try done.
    destruct (eq_one (dict_get d "status")); [done|]. apply IH. lia.
Qed.

(** X14: the outcome of [solve_captcha] depends on the network only through
    the answer to the submission at the intake address and the answers to
    the first 120 polls at the result address, made with the key and the
    job id: two services that agree there give the same outcome. *)
Theorem solve_captcha_reads_only_its_requests net1 net2 key sitekey pageurl :
  requests_post net1 SOLVE_URL (submit_payload key sitekey pageurl)
  = requests_post net2 SOLVE_URL (submit_payload key sitekey pageurl) →
  (∀ id k, k < 120 →
     requests_get net1 k RESULT_URL (poll_payload key id)
     = requests_get net2 k RESULT_URL (poll_payload key id)) →
  solve_captcha net1 key sitekey pageurl = solve_captcha net2 key sitekey pageurl.
Proof.
  intros Hpost Hget. unfold solve_captcha.
  fold (submit_payload key sitekey pageurl). rewrite Hpost.
  destruct (requests_post net2 SOLVE_URL _) as [e| |d|]; try done.
  destruct (negb _); [done|].
  destruct (dict_item d "request") as [id|e]; [|done].
  apply (poll_ext net1 net2 key id (Hget id) max_attempts). lia.
Qed.

Lemma solve_captcha_reads_only_its_requests_witness :
  solve_captcha never_ready "key" "site" NEVADA_URL
  = solve_captcha never_ready_elsewhere "key" "site" NEVADA_URL.
Proof.
  apply solve_captcha_reads_only_its_requests; [done|].
  intros id k Hk. simpl.
  by destruct (Nat.ltb_spec k 120); [|lia].
Defined.

(** ** The trace of an attempt *)

Ltac in_trace :=
  solve [repeat first [apply list_elem_of_here | apply list_elem_of_further]].

(** Membership in an explicit trace, as a disjunction of equations. *)
Ltac split_elem H :=
  repeat (apply elem_of_cons in H as [H | H]);
  [.. | by apply elem_of_nil in H].

Lemma truthy_str_nonempty k : truthy_str (Some k) = true → k ≠ "".
Proof. simpl. by intros Hk ->. Qed.

(** Closes a goal about an explicit stretch of trace, using the equations
    recorded when the world was asked. *)
Ltac close_trace :=
  intros;
  repeat match goal with
         | H : _ ∈ _ :: _ |- _ => split_elem H; try discriminate; simplify_eq/=
         end;
  try done; try (simpl; lia); try in_trace;
  try (split; [done|]); try (eexists _, _, _; split; [in_trace | done]).

Lemma detect_challenge_trace w t :
  ∃ ev, detect_challenge w t = (Ok tt, t ++ ev) ∧ challenge_trace w ev.
Proof.
  unfold detect_challenge, solve_and_inject. run_M. cbv beta iota zeta.
  repeat ask_world.
  all: rewrite <- ?app_assoc; simpl.
  all: eexists; (split; [reflexivity|]).
  all: repeat match goal with
         | H : truthy_str (Some _) = true |- _ => apply truthy_str_nonempty in H
         end.
  all: unfold challenge_trace; repeat split.
  all: close_trace.
Qed.

(** Case analysis on a whole attempt: the challenge step is taken as a
    stretch of trace that satisfies [challenge_trace]. *)
Ltac ask_attempt :=
  match goal with
  | |- context [detect_challenge ?w ?t] =>
      let ev := fresh "ev" in
      let Hev := fresh "Hev" in
      destruct (detect_challenge_trace w t) as (ev & -> & Hev)
  | |- context [match sb_do ?w ?t ?c with _ => _ end] =>
      destruct (sb_do w t c) eqn:?
  | |- context [match sb_get_page_source ?w ?t with _ => _ end] =>
      destruct (sb_get_page_source w t) eqn:?
  | |- context [match parse_business_information ?b ?n ?h with _ => _ end] =>
      destruct (parse_business_information b n h) eqn:?
  end; cbv beta iota zeta; cbn [fst snd].

Ltac open_attempt :=
  unfold scrape_nevada_entity, attempt, with_SB, search_and_extract, detect_form;
  run_M; cbv beta iota zeta;
  repeat ask_attempt;
  rewrite <- ?app_assoc; cbn [app fst snd].

(** Membership in the trace of a leaf: a hypothesis is split down to the
    events and the stretch of the challenge step, a goal is searched. *)
Ltac split_trace H :=
  repeat first
    [ apply elem_of_cons in H as [H | H]
    | apply elem_of_app in H as [H | H] ];
  try (by apply elem_of_nil in H).

Ltac find_in_trace :=
  solve [repeat first
           [ apply list_elem_of_here
           | apply list_elem_of_further
           | apply elem_of_app; left; assumption
           | apply elem_of_app; right ]].

(** X15: a token is written to the page only if a call of [solve_captcha]
    made during the attempt returned it. *)
Theorem injected_token_comes_from_solver w file_number tok r :
  let tr := (scrape_nevada_entity w file_number []).2 in
  Called (execute_script (set_captcha_response tok)) r ∈ tr →
  ∃ k c n,
    Solver k (Ok c, n) ∈ tr
    ∧ solve_captcha (net w) (API_KEY (environ w)) k NEVADA_URL = (Ok c, n)
    ∧ token c = tok.
Proof.
  cbv zeta. open_attempt.
  all: intros Hin; split_trace Hin; try discriminate.
  all: destruct Hev as (Htok & _ & Hsolver & _).
  all: destruct (Htok _ _ Hin) as (k & c & n & Hs & <-).
  all: destruct (Hsolver _ _ Hs) as (_ & Hr & _).
  all: exists k, c, n; (split; [find_in_trace | by split]).
Qed.

Lemma injected_token_comes_from_solver_witness :
  ∃ k c n,
    Solver k (Ok c, n)
    ∈ (scrape_nevada_entity (challenged_site ready_at_third_poll entity_page)
         "E10281132020-8" []).2
    ∧ solve_captcha ready_at_third_poll
        (API_KEY (environ (challenged_site ready_at_third_poll entity_page)))
        k NEVADA_URL = (Ok c, n)
    ∧ token c = JStr "P1_eyJ0eXAi".
Proof.
  apply (injected_token_comes_from_solver
           (challenged_site ready_at_third_poll entity_page) "E10281132020-8"
           (JStr "P1_eyJ0eXAi") None).
  vm_compute. in_trace.
Defined.

Lemma filter_solver_cons x (l : list event) :
  filter (λ x, is_solver x = true) (x :: l)
  = if is_solver x then x :: filter (λ x, is_solver x = true) l
    else filter (λ x, is_solver x = true) l.
Proof.
  rewrite filter_cons. destruct (is_solver x); by case_decide.
Qed.

Lemma filter_solver_app (l1 l2 : list event) :
  filter (λ x, is_solver x = true) (l1 ++ l2)
  = filter (λ x, is_solver x = true) l1 ++ filter (λ x, is_solver x = true) l2.
Proof.
  induction l1 as [|x l1 IH]; [done|].
  change ((x :: l1) ++ l2) with (x :: (l1 ++ l2)).
  rewrite !filter_solver_cons, IH. by destruct (is_solver x).
Qed.

Lemma filter_solver_none (l : list event) :
  forallb (λ x, negb (is_solver x)) l = true →
  filter (λ x, is_solver x = true) l = [].
Proof.
  induction l as [|x l IH]; [done|]. simpl. intros [Hx Hl]%andb_true_iff.
  rewrite filter_solver_cons. destruct (is_solver x); [done|]. by apply IH.
Qed.

(** The count of the calls of [solve_captcha] in a trace made of two
    stretches without any around one that has at most one. *)
Lemma solver_count_around (pre ev post : list event) :
  forallb (λ x, negb (is_solver x)) pre = true →
  forallb (λ x, negb (is_solver x)) post = true →
  length (filter (λ x, is_solver x = true) ev) ≤ 1 →
  length (filter (λ x, is_solver x = true) (pre ++ ev ++ post)) ≤ 1.
Proof.
  intros Hpre Hpost Hev.
  rewrite !filter_solver_app, (filter_solver_none pre), (filter_solver_none post)
    by done.
  by rewrite app_nil_r.
Qed.

Ltac stretch_before ev l :=
  lazymatch l with
  | ev ++ _ => constr:(@nil event)
  | ?x :: ?l' => let p := stretch_before ev l' in constr:(x :: p)
  end.

Ltac stretch_after ev l :=
  lazymatch l with
  | ev ++ ?post => post
  | _ :: ?l' => stretch_after ev l'
  end.

Ltac count_solver :=
  lazymatch goal with
  | Hev : challenge_trace _ ?ev |- length (filter _ ?l) ≤ 1 =>
      let pre := stretch_before ev l in
      let post := stretch_after ev l in
      destruct Hev as (_ & _ & _ & Hcount & _);
      apply (solver_count_around pre ev post); [by vm_compute | by vm_compute | exact Hcount]
  | |- length (filter _ ?l) ≤ 1 =>
      apply (solver_count_around l [] []); [by vm_compute | done | simpl; lia]
  end.

Lemma detect_challenge_site_key w t :
  ∃ ev, detect_challenge w t = (Ok tt, t ++ ev)
        ∧ challenge_trace w ev ∧ solver_after_site_key w t ev.
Proof.
  unfold detect_challenge, solve_and_inject. run_M. cbv beta iota zeta.
  repeat ask_world.
  all: rewrite <- ?app_assoc; simpl.
  all: eexists; (split; [reflexivity|]).
  all: repeat match goal with
         | H : truthy_str (Some _) = true |- _ => apply truthy_str_nonempty in H
         end.
  all: split; [unfold challenge_trace; repeat split; close_trace|].
  all: intros k r Hin; split_elem Hin; try discriminate.
  all: injection Hin as -> ->.
  all: eexists; (split; [reflexivity|]).
  all: unfold site_key_prelude.
  all: match goal with
       | H : sb_get_attribute _ _ h_captcha "data-sitekey" = Ok (Some _) |- _ =>
           rewrite <- !app_assoc in H; exact H
       end.
Qed.

(** Case analysis on a whole attempt that also keeps, for the challenge
    step, where its site key came from. *)
Ltac ask_attempt_site_key :=
  match goal with
  | |- context [detect_challenge ?w ?t] =>
      let ev := fresh "ev" in
      let Hev := fresh "Hev" in
      let Hkey := fresh "Hkey" in
      destruct (detect_challenge_site_key w t) as (ev & -> & Hev & Hkey)
  | |- context [match sb_do ?w ?t ?c with _ => _ end] =>
      destruct (sb_do w t c) eqn:?
  | |- context [match sb_get_page_source ?w ?t with _ => _ end] =>
      destruct (sb_get_page_source w t) eqn:?
  | |- context [match parse_business_information ?b ?n ?h with _ => _ end] =>
      destruct (parse_business_information b n h) eqn:?
  end; cbv beta iota zeta; cbn [fst snd].

Ltac open_attempt_site_key :=
  unfold scrape_nevada_entity, attempt, with_SB, search_and_extract, detect_form;
  run_M; cbv beta iota zeta;
  repeat ask_attempt_site_key;
  rewrite <- ?app_assoc; cbn [app fst snd].

(** X16: during an attempt [solve_captcha] is called at most once. When it
    is called, the probe for the search input has failed before, and the
    call comes right after the site key was read from the page and printed:
    it is made with the very string the page gave for the site key, which is
    not empty, and with NEVADA_URL, and its outcome is the one recorded. *)
Theorem solver_called_at_most_once w file_number :
  let tr := (scrape_nevada_entity w file_number []).2 in
  length (filter (λ x, is_solver x = true) tr) ≤ 1
  ∧ ∀ k r, Solver k r ∈ tr →
      ∃ h post,
        tr = h ++ Called (get_attribute h_captcha "data-sitekey") None
                  :: Printed (TextOpt "Found sitekey: " (Some k))
                  :: Solver k r :: post
        ∧ sb_get_attribute w h h_captcha "data-sitekey" = Ok (Some k)
        ∧ k ≠ ""
        ∧ r = solve_captcha (net w) (API_KEY (environ w)) k NEVADA_URL
        ∧ ∃ e, Called (wait_for_element_present search_input (Some 5)) (Some e) ∈ h.
Proof.
  cbv zeta. open_attempt_site_key.
  all: split; [count_solver | intros k r Hin; split_trace Hin; try discriminate].
  all: destruct Hev as (_ & _ & Hsolver & _).
  all: destruct (Hsolver _ _ Hin) as (Hk & Hr & _).
  all: destruct (Hkey _ _ Hin) as (post & -> & Hread).
  all: match type of Hread with
       | sb_get_attribute _ ?h _ _ = _ => exists h
       end.
  all: eexists; (split; [unfold site_key_prelude; cbn [app]; reflexivity|]).
  all: split; [exact Hread|]; split; [done|]; split; [done|].
  all: eexists; unfold site_key_prelude; cbn [app]; find_in_trace.
Qed.

(** X17: when the final record carries an error, the record is the failure
    record for that error, the error is printed, and it was raised by a call
    outside the detection and the challenge (entering or leaving the browser
    context, the navigation, a pause, a step of the search, the reading of
    the page source) or is the parser's failure; it is never an exception of
    the challenge step. *)
Theorem failed_record_error_source w file_number e :
  let run := scrape_nevada_entity w file_number [] in
  error (metadata run.1) = Some e →
  run.1 = failed_business_data (time_strftime w run.2) e
  ∧ Printed (TextExn "Error during scraping: " e) ∈ run.2
  ∧ ((∃ c, outside_call c = true ∧ Called c (Some e) ∈ run.2)
     ∨ e = Exception "Failed to parse business information").
Proof.
  cbv zeta. open_attempt.
  all: try match goal with
         | H : parse_business_information _ _ _ = Some _ |- _ =>
             apply parse_business_information_metadata in H as [_ H]
         end.
  all: intros Herr; simpl in Herr; try congruence.
  all: injection Herr as <-.
  all: split; [reflexivity|]; split; [find_in_trace|].
  all: first [ by right
             | left; eexists; split; cycle 1; [find_in_trace | reflexivity] ].
Qed.

Lemma failed_record_error_source_witness :
  let run := scrape_nevada_entity stalled_site "E10281132020-8" [] in
  run.1 = failed_business_data (time_strftime stalled_site run.2) result_timeout
  ∧ Printed (TextExn "Error during scraping: " result_timeout) ∈ run.2
  ∧ ((∃ c, outside_call c = true ∧ Called c (Some result_timeout) ∈ run.2)
     ∨ result_timeout = Exception "Failed to parse business information").
Proof.
  apply (failed_record_error_source stalled_site "E10281132020-8" result_timeout).
  reflexivity.
Defined.

(** X18: the browser context is left on every path on which it was entered,
    and when entering it fails no other call is made on the browser. *)
Theorem browser_context_is_released w file_number :
  let tr := (scrape_nevada_entity w file_number []).2 in
  (Called SB_enter None ∈ tr → ∃ r, Called SB_exit r ∈ tr)
  ∧ (∀ e, Called SB_enter (Some e) ∈ tr → ∀ c r, Called c r ∈ tr → c = SB_enter).
Proof.
  cbv zeta. open_attempt.
  all: split;
    [ intros Hin; first [ eexists; find_in_trace
                        | split_trace Hin; discriminate ]
    | intros e' Hin; split_trace Hin; try discriminate ].
  all: first [ destruct Hev as (_ & _ & _ & _ & Hcalls);
               by apply Hcalls in Hin
             | intros c r Hc; split_trace Hc; try discriminate; congruence ].
Qed.

(** X19: the only text an attempt types into the page is the file number it
    was asked for, and it types it into the search input. *)
Theorem only_the_file_number_is_typed w file_number selector text r :
  Called (type selector text) r ∈ (scrape_nevada_entity w file_number []).2 →
  selector = search_input ∧ text = file_number.
Proof.
  open_attempt.
  all: intros Hin; split_trace Hin; try discriminate.
  all: first [ by injection Hin as -> ->
             | destruct Hev as (_ & _ & _ & _ & Hcalls);
               by apply Hcalls in Hin ].
Qed.

Lemma only_the_file_number_is_typed_witness :
  search_input = search_input ∧ "E10281132020-8" = "E10281132020-8".
Proof.
  apply (only_the_file_number_is_typed (open_site ∅ never_ready entity_page)
           "E10281132020-8" search_input "E10281132020-8" None).
  vm_compute. in_trace.
Defined.

(** ** The process *)

(** X20: a run exits with status 0 exactly when it has written a record
    whose success flag is true, and with status 1 otherwise; the record it
    writes is the record of the attempt for the file number of the
    environment (or the default), completed with that file number and the
    request id, under the file name built from both. *)
Theorem main_exit_status w :
  let m := main w in
  let fn := os_getenv (environ w) "FILE_NUMBER" "E10281132020-8" in
  let rid := os_getenv (environ w) "REQUEST_ID" ("nevada-" +:+ pretty (time_time w)) in
  exit_status m ≤ 1
  ∧ (exit_status m = 0
     ↔ ∃ f r, saved m = Some (f, r) ∧ success (metadata r) = true)
  ∧ (∀ f r, saved m = Some (f, r) →
       f = "scraped_data_" +:+ fn +:+ "_" +:+ rid +:+ ".json"
       ∧ r = add_metadata fn rid (scrape_nevada_entity w fn []).1
       ∧ file_number_searched (metadata r) = Some fn
       ∧ request_id (metadata r) = Some rid
       ∧ ∃ t, attempted m = Some (r, t)).
Proof.
  cbv zeta. unfold main.
  destruct (String.eqb (API_KEY (environ w)) "").
  { simpl. split; [lia|]. split; [|done]. split; [done | by intros (f & r & ? & _)]. }
  destruct (scrape_nevada_entity w _ []) as [result t]. simpl.
  destruct (open_w w _) as [e|]; simpl.
  { split; [lia|]. split; [|done]. split; [done | by intros (f & r & ? & _)]. }
  split; [destruct (success (metadata result)); lia|]. split.
  - destruct (success (metadata result)) eqn:Hsuccess.
    + split; [|done]. intros _. eexists _, _. split; [reflexivity|]. done.
    + split; [done|]. intros (f & r & [= _ <-] & Hr). simpl in Hr. congruence.
  - intros f r [= <- <-]. simpl. eauto 6.
Qed.
